(** * Camera, frame clock, animation engine and planar shadows of
      [graphics_utils.py]

    A shallow embedding of the numeric core of [graphics_utils.py]: the
    frame clock ([calculate_delta_time]), the orbital camera
    ([update_dynamic_smoothing], [update_camera_position],
    [update_orbital_camera]), the animation engine
    ([update_all_animation_systems], [update_model_animation],
    [apply_animation_preset], ...) and the planar shadow matrix
    ([create_shadow_matrix]).

    Conventions of the embedding.
    - Python floats are idealised as exact rationals [Q]; every literal of
      the source ([0.033], [0.7], [89.0], ...) is the rational it denotes
      ([33 # 1000], [7 # 10], [89], ...).
      Numeric equalities are stated with [==] ([Qeq]), or with [=] where the
      code stores the very fraction. A statement that holds of the exact
      arithmetic only, and of the running code up to rounding, says so.
    - Where rounding decides the result (the yaw of the camera, which
      [% 360.0] can round up to 360.0), the code is embedded once more on
      IEEE binary64 numbers, with the prefix [f64_].
    - The module-level variables that a function assigns are gathered in a
      record per subsystem and threaded explicitly; the ones that are only
      read are arguments ([delta_time], the pressed keys, the turbo flag) or
      constants.
    - [time.time()] and [pygame.time.get_ticks()] are inputs of the
      functions that call them.
    - [np.sin], [np.cos], [np.radians], [np.pi], [np.sqrt] and the float
      formatting of the status messages are parameters; a statement depends
      on them only through the hypotheses it states ([sqrt 1 = 1],
      values within [-1, 1]). *)

From Stdlib Require Import ZArith QArith Qround Qminmax Qabs Qpower Lqa Lia
  List String Floats.
From stdpp Require Import gmap pretty.

Local Open Scope Q_scope.

(** ** Numeric primitives *)

(** [x > y] on floats, as a boolean. *)
Definition Qgt_bool (x y : Q) : bool := negb (Qle_bool x y).

(** [x < y] on floats, as a boolean. *)
Definition Qlt_bool (x y : Q) : bool := negb (Qle_bool y x).

(** [np.clip(x, lo, hi)]: [minimum(maximum(x, lo), hi)]. *)
Definition np_clip (x lo hi : Q) : Q := Qmin (Qmax x lo) hi.

(** Python's [x % m] on floats: the remainder of the floored division,
    which takes the sign of [m]. Over the rationals the result is always
    below a positive [m]; on doubles the result can round to [m] itself
    (see [f64_py_mod]). *)
Definition py_mod (x m : Q) : Q := x - m * inject_Z (Qfloor (x / m)).

(** ** Frame clock *)

Record clock_state := mk_clock {
  last_frame_time : Q;
  delta_time : Q;
  frame_count : Z;
  delta_time_sum : Q
}.

(** The values the module is loaded with. *)
Definition initial_clock : clock_state :=
  {| last_frame_time := 0; delta_time := 0; frame_count := 0;
     delta_time_sum := 0 |}.

(** The raw sample of a call: [current_time - last_frame_time]. *)
Definition raw_delta (current_time : Q) (c : clock_state) : Q :=
  current_time - last_frame_time c.

(** [calculate_delta_time()], with [current_time] the value returned by
    [time.time()]. *)
Definition calculate_delta_time (current_time : Q) (c : clock_state)
  : clock_state :=
  let dt :=
    if Qeq_bool (last_frame_time c) 0 then 1 / 60
    else
      let raw := raw_delta current_time c in
      if Qgt_bool raw (33 # 1000) then 33 # 1000
      else if Qlt_bool raw (1 # 1000) then 1 # 1000
      else delta_time c * (7 # 10) + raw * (3 # 10) in
  {| last_frame_time := current_time;
     delta_time := dt;
     frame_count := (frame_count c + 1)%Z;
     delta_time_sum := delta_time_sum c + dt |}.

(** The clock after the calls that sampled the wall clock at [samples], in
    that order. *)
Definition run_clock (samples : list Q) (c : clock_state) : clock_state :=
  fold_left (fun c t => calculate_delta_time t c) samples c.

(** What the specification describes for the calls after the first: the
    raw sample clamped into [0.001, 0.033]. *)
Definition clamped_raw (current_time : Q) (c : clock_state) : Q :=
  np_clip (raw_delta current_time c) (1 # 1000) (33 # 1000).

(** The range the clamp of the frame clock keeps the delta in. *)
Definition delta_in_range (c : clock_state) : Prop :=
  1 # 1000 <= delta_time c /\ delta_time c <= 33 # 1000.

(** The clock after a first call at wall-clock time 1. *)
Definition clock_after_first : clock_state :=
  calculate_delta_time 1 initial_clock.

(** ** Orbital camera *)

(** Key codes of [pygame.locals]: the ASCII codes of the letters. *)
Definition K_a : Z := 97.
Definition K_d : Z := 100.
Definition K_e : Z := 101.
Definition K_q : Z := 113.
Definition K_s : Z := 115.
Definition K_w : Z := 119.

(** Module constants that no code assigns. *)
Definition pitch_limit : Q := 89.
Definition min_zoom_distance : Q := 2.
Definition max_zoom_distance : Q := 50.
Definition turbo_multiplier : Q := 3.
Definition fast_smoothing_threshold : Q := 15.
Definition input_smoothing_factor : Q := 15 # 100.
Definition idle_smoothing_factor : Q := 88 # 100.
Definition fast_mode_smoothing : Q := 8 # 100.
Definition centerX : Q := 0.
Definition centerY : Q := 0.
Definition centerZ : Q := 0.

(** The tuning variables, which the key handlers of the viewers adjust
    between frames. *)
Record camera_config := mk_config {
  camera_speed : Q;
  orbit_speed : Q;
  zoom_speed : Q;
  pitch_speed : Q;
  forward_speed_multiplier : Q;
  strafe_speed_multiplier : Q;
  vertical_speed_multiplier : Q;
  smoothing_boost_on_input : bool;
  movement_smoothing : Q
}.

(** Their values when the module is loaded. *)
Definition default_config : camera_config :=
  {| camera_speed := 7;
     orbit_speed := 100;
     zoom_speed := 35 # 10;
     pitch_speed := 70;
     forward_speed_multiplier := 13 # 10;
     strafe_speed_multiplier := 13 # 10;
     vertical_speed_multiplier := 16 # 10;
     smoothing_boost_on_input := true;
     movement_smoothing := 82 # 100 |}.

(** The variables the camera functions assign. [rotation_velocity] is the
    two-element array (yaw rate, pitch rate). *)
Record camera_state := mk_camera {
  camera_yaw : Q;
  camera_pitch : Q;
  camera_distance : Q;
  rotation_velocity : Q * Q;
  zoom_velocity : Q;
  current_smoothing : Q;
  last_input_time : Q;
  eyeX : Q;
  eyeY : Q;
  eyeZ : Q
}.

Definition initial_camera : camera_state :=
  {| camera_yaw := 0; camera_pitch := 0; camera_distance := 8;
     rotation_velocity := (0, 0); zoom_velocity := 0;
     current_smoothing := 82 # 100; last_input_time := 0;
     eyeX := 0; eyeY := 0; eyeZ := 8 |}.

(** What one frame reads besides the camera state: the pressed keys, the
    turbo flag, the global [delta_time], the wall clock and the tuning. *)
Record frame_input := mk_frame {
  keys_pressed : gset Z;
  turbo_active : bool;
  frame_delta : Q;
  frame_time : Q;
  frame_config : camera_config
}.

Definition with_smoothing (cs lit : Q) (s : camera_state) : camera_state :=
  {| camera_yaw := camera_yaw s; camera_pitch := camera_pitch s;
     camera_distance := camera_distance s;
     rotation_velocity := rotation_velocity s;
     zoom_velocity := zoom_velocity s;
     current_smoothing := cs; last_input_time := lit;
     eyeX := eyeX s; eyeY := eyeY s; eyeZ := eyeZ s |}.

(** [update_dynamic_smoothing()]. *)
Definition update_dynamic_smoothing (i : frame_input) (s : camera_state)
  : camera_state :=
  let cfg := frame_config i in
  let current_time := frame_time i in
  if negb (smoothing_boost_on_input cfg) then
    with_smoothing (movement_smoothing cfg) (last_input_time s) s
  else
    let has_input := bool_decide (keys_pressed i <> empty) in
    let current_speed :=
      if turbo_active i then camera_speed cfg * turbo_multiplier
      else camera_speed cfg in
    let fast := Qgt_bool current_speed fast_smoothing_threshold in
    let lit := if has_input then current_time else last_input_time s in
    let target_smoothing :=
      if has_input then
        if fast || turbo_active i then fast_mode_smoothing
        else input_smoothing_factor
      else
        let time_since_input := current_time - last_input_time s in
        if Qlt_bool time_since_input (2 # 10) then
          let blend_factor := time_since_input / (2 # 10) in
          if fast then
            fast_mode_smoothing
            + (input_smoothing_factor - fast_mode_smoothing) * blend_factor
          else
            input_smoothing_factor
            + (idle_smoothing_factor - input_smoothing_factor) * blend_factor
        else idle_smoothing_factor in
    let transition_speed := if has_input then 15 # 100 else 25 # 100 in
    with_smoothing
      (current_smoothing s * (1 - transition_speed)
       + target_smoothing * transition_speed)
      lit s.

Section Trigonometry.

(** [np.radians], [np.sin] and [np.cos]. *)
Variables np_radians np_sin np_cos : Q -> Q.

(** [update_orbital_camera()]: the eye position from yaw, pitch and
    distance. *)
Definition update_orbital_camera (s : camera_state) : camera_state :=
  let yaw_rad := np_radians (camera_yaw s) in
  let pitch_rad := np_radians (camera_pitch s) in
  {| camera_yaw := camera_yaw s; camera_pitch := camera_pitch s;
     camera_distance := camera_distance s;
     rotation_velocity := rotation_velocity s;
     zoom_velocity := zoom_velocity s;
     current_smoothing := current_smoothing s;
     last_input_time := last_input_time s;
     eyeX := centerX + camera_distance s * np_cos pitch_rad * np_sin yaw_rad;
     eyeY := centerY + camera_distance s * np_sin pitch_rad;
     eyeZ := centerZ + camera_distance s * np_cos pitch_rad * np_cos yaw_rad |}.

(** The effective speeds: the tuned speed times its multiplier, and
    times [turbo_multiplier] when turbo is active. *)
Definition turbo_scaled (i : frame_input) (speed : Q) : Q :=
  if turbo_active i then speed * turbo_multiplier else speed.

Definition effective_orbit_speed (i : frame_input) : Q :=
  turbo_scaled i
    (orbit_speed (frame_config i) * strafe_speed_multiplier (frame_config i)).

Definition effective_zoom_speed (i : frame_input) : Q :=
  turbo_scaled i
    (zoom_speed (frame_config i) * forward_speed_multiplier (frame_config i)).

Definition effective_pitch_speed (i : frame_input) : Q :=
  turbo_scaled i
    (pitch_speed (frame_config i) * vertical_speed_multiplier (frame_config i)).

(** The rates the pressed keys ask for, (yaw rate, pitch rate): the [if]s
    of the source in their order, a later one overriding an earlier one. *)
Definition target_rotation_velocity (i : frame_input) : Q * Q :=
  let yaw_rate := 0 in
  let yaw_rate :=
    if bool_decide (K_a ∈ keys_pressed i) then effective_orbit_speed i
    else yaw_rate in
  let yaw_rate :=
    if bool_decide (K_d ∈ keys_pressed i) then - effective_orbit_speed i
    else yaw_rate in
  let pitch_rate := 0 in
  let pitch_rate :=
    if bool_decide (K_q ∈ keys_pressed i) then effective_pitch_speed i
    else pitch_rate in
  let pitch_rate :=
    if bool_decide (K_e ∈ keys_pressed i) then - effective_pitch_speed i
    else pitch_rate in
  (yaw_rate, pitch_rate).

Definition target_zoom_velocity (i : frame_input) : Q :=
  let rate := 0 in
  let rate :=
    if bool_decide (K_w ∈ keys_pressed i) then - effective_zoom_speed i
    else rate in
  let rate :=
    if bool_decide (K_s ∈ keys_pressed i) then effective_zoom_speed i
    else rate in
  rate.

(** The one-pole filter of the source:
    [v * current_smoothing + target * (1 - current_smoothing)]. *)
Definition smooth (cs v target : Q) : Q := v * cs + target * (1 - cs).

(** [update_camera_position()]. *)
Definition update_camera_position (i : frame_input) (s0 : camera_state)
  : camera_state :=
  let s := update_dynamic_smoothing i s0 in
  let cs := current_smoothing s in
  let dt := frame_delta i in
  let target := target_rotation_velocity i in
  let rv := (smooth cs (fst (rotation_velocity s)) (fst target),
             smooth cs (snd (rotation_velocity s)) (snd target)) in
  let yaw :=
    if Qgt_bool dt 0 then py_mod (camera_yaw s + fst rv * dt) 360
    else camera_yaw s in
  let pitch :=
    if Qgt_bool dt 0
    then np_clip (camera_pitch s + snd rv * dt) (- pitch_limit) pitch_limit
    else camera_pitch s in
  let zv := smooth cs (zoom_velocity s) (target_zoom_velocity i) in
  let distance :=
    if Qgt_bool dt 0
    then np_clip (camera_distance s + zv * dt)
           min_zoom_distance max_zoom_distance
    else camera_distance s in
  update_orbital_camera
    {| camera_yaw := yaw; camera_pitch := pitch; camera_distance := distance;
       rotation_velocity := rv; zoom_velocity := zv;
       current_smoothing := cs; last_input_time := last_input_time s;
       eyeX := eyeX s; eyeY := eyeY s; eyeZ := eyeZ s |}.

(** The camera after a sequence of frames. *)
Definition run_camera (frames : list frame_input) (s : camera_state)
  : camera_state :=
  fold_left (fun s i => update_camera_position i s) frames s.

End Trigonometry.

(** *** Evaluation on fractions in lowest terms

    Sixty frames of rational arithmetic make fractions of millions of
    digits unless they are reduced; [run_camera_reduced] is [run_camera]
    with every number brought to lowest terms after each frame. It is used
    only to evaluate [run_camera] on concrete inputs, through
    [run_camera_reduced_equiv]. *)

Definition reduce_camera (s : camera_state) : camera_state :=
  {| camera_yaw := Qred (camera_yaw s);
     camera_pitch := Qred (camera_pitch s);
     camera_distance := Qred (camera_distance s);
     rotation_velocity :=
       (Qred (fst (rotation_velocity s)), Qred (snd (rotation_velocity s)));
     zoom_velocity := Qred (zoom_velocity s);
     current_smoothing := Qred (current_smoothing s);
     last_input_time := Qred (last_input_time s);
     eyeX := eyeX s; eyeY := eyeY s; eyeZ := eyeZ s |}.

Definition run_camera_reduced (np_radians np_sin np_cos : Q -> Q)
    (frames : list frame_input) (s : camera_state) : camera_state :=
  fold_left
    (fun s i =>
       reduce_camera (update_camera_position np_radians np_sin np_cos i s))
    frames s.

(** Two camera states that hold the same motion: equal angles, distance,
    rates and smoothing factor (the time of the last input and the derived
    eye position apart). *)
Definition motion_equiv (s1 s2 : camera_state) : Prop :=
  camera_yaw s1 == camera_yaw s2
  /\ camera_pitch s1 == camera_pitch s2
  /\ camera_distance s1 == camera_distance s2
  /\ fst (rotation_velocity s1) == fst (rotation_velocity s2)
  /\ snd (rotation_velocity s1) == snd (rotation_velocity s2)
  /\ zoom_velocity s1 == zoom_velocity s2
  /\ current_smoothing s1 == current_smoothing s2.

(** Two frames with the same input, read at possibly different wall-clock
    times. *)
Definition same_input (i1 i2 : frame_input) : Prop :=
  keys_pressed i1 = keys_pressed i2
  /\ turbo_active i1 = turbo_active i2
  /\ frame_delta i1 = frame_delta i2
  /\ frame_config i1 = frame_config i2.

(** The pitch the integration step computes before it is clipped. *)
Definition unclipped_pitch (i : frame_input) (s0 : camera_state) : Q :=
  let s := update_dynamic_smoothing i s0 in
  camera_pitch s
  + smooth (current_smoothing s) (snd (rotation_velocity s))
      (snd (target_rotation_velocity i)) * frame_delta i.

(** A frame of the viewer in its default tuning, with no turbo. *)
Definition plain_frame (keys : gset Z) (dt now : Q) : frame_input :=
  {| keys_pressed := keys; turbo_active := false; frame_delta := dt;
     frame_time := now; frame_config := default_config |}.

(** Holding one key for the frames sampled at [nows], at [1/60] s a frame. *)
Definition hold_key (key : Z) (nows : list Q) : list frame_input :=
  map (plain_frame {[ key ]} (1 # 60)) nows.

(** The wall clock at the end of each of [n] frames that last [dt]. *)
Definition frame_times (dt : Q) (n : nat) : list Q :=
  map (fun k => inject_Z (Z.of_nat k) * dt) (seq 1 n).

(** Holding Q (pitch up) with turbo on, in the default tuning, for the
    frames sampled at [nows], at 0.033 s a frame. *)
Definition pitch_up_frame (now : Q) : frame_input :=
  {| keys_pressed := {[ K_q ]}; turbo_active := true;
     frame_delta := 33 # 1000; frame_time := now;
     frame_config := default_config |}.

(** A stand-in for [np.radians], [np.sin] and [np.cos] where a concrete
    run is evaluated: they only feed the eye position, which no update
    reads back. *)
Definition no_trig (x : Q) : Q := 0.

(** The camera after holding Q with turbo for [n] frames of 0.033 s. *)
Definition pitched_up (n : nat) : camera_state :=
  run_camera no_trig no_trig no_trig
    (map pitch_up_frame (frame_times (33 # 1000) n)) initial_camera.

(** The angle the camera has turned from yaw 0 when it orbits left (A, the
    yaw grows) or right (D, the yaw decreases and wraps below 0). *)
Definition turned_angle (left : bool) (s : camera_state) : Q :=
  if left then camera_yaw s else 360 - camera_yaw s.

(** The yaw rate in the direction of the orbit. *)
Definition orbit_rate (left : bool) (s : camera_state) : Q :=
  if left then fst (rotation_velocity s) else - fst (rotation_velocity s).

Definition orbit_key (left : bool) : Z := if left then K_a else K_d.

(** The state of a run that holds an orbit key, after [k] frames: [e] is
    what the yaw rate still lacks to 130 degrees a second, [lag] what the
    turned angle lacks to [130 * k / 60] degrees (times 60). The lag stays
    positive and bounded, as the partial sums of a geometric series of
    ratio 0.72 are. *)
Definition orbit_inv (left : bool) (k : nat) (s : camera_state) : Prop :=
  let e := 130 - orbit_rate left s in
  let lag := 130 * inject_Z (Z.of_nat k) - 60 * turned_angle left s in
  ((15 # 100) <= current_smoothing s /\ current_smoothing s <= (72 # 100))
  /\ 0 < e
  /\ 0 < lag
  /\ 7 * lag + 18 * e <= 18 * 130
  /\ 0 < turned_angle left s.


(** ** Animation engine *)

(** A value a Python call can hand back, as far as the functions below are
    concerned. *)
Inductive py_value :=
  | PyNone
  | PyBool (b : bool)
  | PyFloat (x : Q).

(** An entry of [animation_presets]: a dict in which only ['name'] is always
    present; the other keys are read with [dict.get] and a default. *)
Record preset := mk_preset {
  name : string;
  model_speed : option Q;
  model_paused : option bool;
  light_orbit : option bool;
  preset_light_orbit_speed : option Q;
  light_bobbing : option bool;
  preset_light_bobbing_speed : option Q;
  light_path : option bool;
  global_speed : option Q
}.

Definition showcase : preset :=
  {| name := "Showcase";
     model_speed := Some 20; model_paused := Some false;
     light_orbit := Some true; preset_light_orbit_speed := Some 30;
     light_bobbing := Some false; preset_light_bobbing_speed := None;
     light_path := None; global_speed := Some 1 |}.

Definition dynamic : preset :=
  {| name := "Dynamic";
     model_speed := Some 60; model_paused := Some false;
     light_orbit := Some false; preset_light_orbit_speed := None;
     light_bobbing := Some true; preset_light_bobbing_speed := Some 3;
     light_path := None; global_speed := Some (15 # 10) |}.

Definition cinematic : preset :=
  {| name := "Cinematic";
     model_speed := Some 0; model_paused := Some true;
     light_orbit := Some true; preset_light_orbit_speed := Some 20;
     light_bobbing := Some true;
     preset_light_bobbing_speed := Some (15 # 10);
     light_path := None; global_speed := Some (8 # 10) |}.

Definition hyperdrive : preset :=
  {| name := "Hyperdrive";
     model_speed := Some 120; model_paused := Some false;
     light_orbit := Some true; preset_light_orbit_speed := Some 90;
     light_bobbing := None; preset_light_bobbing_speed := None;
     light_path := Some true; global_speed := Some (25 # 10) |}.

Definition zen : preset :=
  {| name := "Zen";
     model_speed := Some 10; model_paused := Some false;
     light_orbit := Some true; preset_light_orbit_speed := Some 15;
     light_bobbing := Some true;
     preset_light_bobbing_speed := Some (5 # 10);
     light_path := None; global_speed := Some (3 # 10) |}.

(** The table [animation_presets], keyed by the preset number. *)
Definition animation_presets : gmap Z preset :=
  <[ 1%Z := showcase ]> (<[ 2%Z := dynamic ]> (<[ 3%Z := cinematic ]>
  (<[ 4%Z := hyperdrive ]> (<[ 5%Z := zen ]> ∅)))).

(** Module constants of the animation system that no code assigns. *)
Definition use_easing : bool := true.
Definition easing_factor : Q := 1 # 10.
Definition auto_rotation_enabled : bool := true.
Definition rotation_speed_degrees_per_sec : Q := 15.
Definition model_rotation_axis : Q * Q * Q := (0, 1, 0).

(** The variables the animation functions assign, with [animation_paused],
    the pause flag of the legacy system, which they read. *)
Record animation_state := mk_animation {
  total_animation_time : Q;
  animation_speed_multiplier : Q;
  model_animation_paused : bool;
  model_rotation_angle : Q;
  model_rotation_speed : Q;
  light_orbit_enabled : bool;
  light_orbit_angle : Q;
  light_orbit_speed : Q;
  light_bobbing_enabled : bool;
  light_bobbing_speed : Q;
  light_bobbing_offset : Q;
  light_path_enabled : bool;
  current_animation_preset : Z;
  animation_paused : bool;
  current_auto_rotation : Q;
  last_action_message : string;
  last_action_time : Q
}.

Definition initial_animation : animation_state :=
  {| total_animation_time := 0; animation_speed_multiplier := 1;
     model_animation_paused := false; model_rotation_angle := 0;
     model_rotation_speed := 30;
     light_orbit_enabled := false; light_orbit_angle := 0;
     light_orbit_speed := 45;
     light_bobbing_enabled := false; light_bobbing_speed := 2;
     light_bobbing_offset := 0;
     light_path_enabled := false;
     current_animation_preset := 1;
     animation_paused := false; current_auto_rotation := 0;
     last_action_message := ""; last_action_time := 0 |}.

(** [set_status_message(message)], with [ticks] the milliseconds returned
    by [pygame.time.get_ticks()]. *)
Definition set_status_message (message : string) (ticks : Z)
    (a : animation_state) : animation_state :=
  {| total_animation_time := total_animation_time a;
     animation_speed_multiplier := animation_speed_multiplier a;
     model_animation_paused := model_animation_paused a;
     model_rotation_angle := model_rotation_angle a;
     model_rotation_speed := model_rotation_speed a;
     light_orbit_enabled := light_orbit_enabled a;
     light_orbit_angle := light_orbit_angle a;
     light_orbit_speed := light_orbit_speed a;
     light_bobbing_enabled := light_bobbing_enabled a;
     light_bobbing_speed := light_bobbing_speed a;
     light_bobbing_offset := light_bobbing_offset a;
     light_path_enabled := light_path_enabled a;
     current_animation_preset := current_animation_preset a;
     animation_paused := animation_paused a;
     current_auto_rotation := current_auto_rotation a;
     last_action_message := message;
     last_action_time := inject_Z ticks / 1000 |}.

(** [update_all_animations()], the legacy auto-rotation; [dt] is the global
    [delta_time]. *)
Definition update_all_animations (dt : Q) (a : animation_state)
  : animation_state :=
  if negb (animation_paused a) && Qgt_bool dt 0 then
    if auto_rotation_enabled then
      {| total_animation_time := total_animation_time a;
         animation_speed_multiplier := animation_speed_multiplier a;
         model_animation_paused := model_animation_paused a;
         model_rotation_angle := model_rotation_angle a;
         model_rotation_speed := model_rotation_speed a;
         light_orbit_enabled := light_orbit_enabled a;
         light_orbit_angle := light_orbit_angle a;
         light_orbit_speed := light_orbit_speed a;
         light_bobbing_enabled := light_bobbing_enabled a;
         light_bobbing_speed := light_bobbing_speed a;
         light_bobbing_offset := light_bobbing_offset a;
         light_path_enabled := light_path_enabled a;
         current_animation_preset := current_animation_preset a;
         animation_paused := animation_paused a;
         current_auto_rotation :=
           py_mod (current_auto_rotation a
                   + rotation_speed_degrees_per_sec * dt) 360;
         last_action_message := last_action_message a;
         last_action_time := last_action_time a |}
    else a
  else a.

(** The animation state with every pause flag set: the legacy
    [animation_paused] and [model_animation_paused]. *)
Definition all_paused : animation_state :=
  {| total_animation_time := 0; animation_speed_multiplier := 1;
     model_animation_paused := true; model_rotation_angle := 0;
     model_rotation_speed := 30;
     light_orbit_enabled := false; light_orbit_angle := 0;
     light_orbit_speed := 45;
     light_bobbing_enabled := false; light_bobbing_speed := 2;
     light_bobbing_offset := 0;
     light_path_enabled := false;
     current_animation_preset := 1;
     animation_paused := true; current_auto_rotation := 0;
     last_action_message := ""; last_action_time := 0 |}.

(** A model paused after it has turned a quarter of a turn, 7.5 s into the
    animation. *)
Definition paused_at_quarter_turn : animation_state :=
  {| total_animation_time := 75 # 10; animation_speed_multiplier := 1;
     model_animation_paused := true; model_rotation_angle := 90;
     model_rotation_speed := 30;
     light_orbit_enabled := false; light_orbit_angle := 0;
     light_orbit_speed := 45;
     light_bobbing_enabled := false; light_bobbing_speed := 2;
     light_bobbing_offset := 0;
     light_path_enabled := false;
     current_animation_preset := 1;
     animation_paused := false; current_auto_rotation := 0;
     last_action_message := "Model Animation: PAUSED";
     last_action_time := 0 |}.

Section Easing.

(** [np.sin], which modulates the rotation rate when easing is on. *)
Variable np_sin : Q -> Q.

(** [update_model_animation()]. *)
Definition update_model_animation (dt : Q) (a : animation_state)
  : animation_state :=
  if negb (model_animation_paused a) && Qgt_bool dt 0 then
    let rotation_delta :=
      model_rotation_speed a * dt * animation_speed_multiplier a in
    let rotation_delta :=
      if use_easing then
        rotation_delta
        * (1 + easing_factor * np_sin (total_animation_time a * (5 # 10)))
      else rotation_delta in
    {| total_animation_time := total_animation_time a;
       animation_speed_multiplier := animation_speed_multiplier a;
       model_animation_paused := model_animation_paused a;
       model_rotation_angle :=
         py_mod (model_rotation_angle a + rotation_delta) 360;
       model_rotation_speed := model_rotation_speed a;
       light_orbit_enabled := light_orbit_enabled a;
       light_orbit_angle := light_orbit_angle a;
       light_orbit_speed := light_orbit_speed a;
       light_bobbing_enabled := light_bobbing_enabled a;
       light_bobbing_speed := light_bobbing_speed a;
       light_bobbing_offset := light_bobbing_offset a;
       light_path_enabled := light_path_enabled a;
       current_animation_preset := current_animation_preset a;
       animation_paused := animation_paused a;
       current_auto_rotation := current_auto_rotation a;
       last_action_message := last_action_message a;
       last_action_time := last_action_time a |}
  else a.

(** The global time advanced by [step]. *)
Definition advance_total_time (step : Q) (a : animation_state)
  : animation_state :=
  {| total_animation_time := total_animation_time a + step;
     animation_speed_multiplier := animation_speed_multiplier a;
     model_animation_paused := model_animation_paused a;
     model_rotation_angle := model_rotation_angle a;
     model_rotation_speed := model_rotation_speed a;
     light_orbit_enabled := light_orbit_enabled a;
     light_orbit_angle := light_orbit_angle a;
     light_orbit_speed := light_orbit_speed a;
     light_bobbing_enabled := light_bobbing_enabled a;
     light_bobbing_speed := light_bobbing_speed a;
     light_bobbing_offset := light_bobbing_offset a;
     light_path_enabled := light_path_enabled a;
     current_animation_preset := current_animation_preset a;
     animation_paused := animation_paused a;
     current_auto_rotation := current_auto_rotation a;
     last_action_message := last_action_message a;
     last_action_time := last_action_time a |}.

(** [update_all_animation_systems()]. *)
Definition update_all_animation_systems (dt : Q) (a : animation_state)
  : animation_state :=
  if Qgt_bool dt 0 then
    let a := advance_total_time (dt * animation_speed_multiplier a) a in
    let a := update_model_animation dt a in
    update_all_animations dt a
  else a.

End Easing.

(** The calls a function issues on the OpenGL matrix stack. *)
Inductive gl_call :=
  | GlRotatef (angle x y z : Q).

(** [apply_model_animation_transforms()]: the OpenGL calls it makes. *)
Definition apply_model_animation_transforms (a : animation_state)
  : list gl_call :=
  if negb (model_animation_paused a) then
    let '(x, y, z) := model_rotation_axis in
    [GlRotatef (model_rotation_angle a) x y z]
  else [].

(** [get_total_model_rotation()]. *)
Definition get_total_model_rotation (a : animation_state) : Q :=
  if model_animation_paused a then 0 else model_rotation_angle a.

(** [toggle_model_animation()]. *)
Definition toggle_model_animation (ticks : Z) (a : animation_state)
  : animation_state :=
  let paused := negb (model_animation_paused a) in
  let speed :=
    if negb paused && Qle_bool (model_rotation_speed a) (1 # 10)
    then 30 else model_rotation_speed a in
  let message :=
    ("Model Animation: " ++ (if paused then "PAUSED" else "PLAYING"))%string in
  set_status_message message ticks
    {| total_animation_time := total_animation_time a;
       animation_speed_multiplier := animation_speed_multiplier a;
       model_animation_paused := paused;
       model_rotation_angle := model_rotation_angle a;
       model_rotation_speed := speed;
       light_orbit_enabled := light_orbit_enabled a;
       light_orbit_angle := light_orbit_angle a;
       light_orbit_speed := light_orbit_speed a;
       light_bobbing_enabled := light_bobbing_enabled a;
       light_bobbing_speed := light_bobbing_speed a;
       light_bobbing_offset := light_bobbing_offset a;
       light_path_enabled := light_path_enabled a;
       current_animation_preset := current_animation_preset a;
       animation_paused := animation_paused a;
       current_auto_rotation := current_auto_rotation a;
       last_action_message := last_action_message a;
       last_action_time := last_action_time a |}.

(** [apply_animation_preset(preset_number)]: the value returned and the
    state it leaves. Both [return] paths of the source hand back [None]. *)
Definition apply_animation_preset (preset_number : Z) (ticks : Z)
    (a : animation_state) : py_value * animation_state :=
  match animation_presets !! preset_number with
  | None => (PyNone, a)
  | Some p =>
      let message :=
        ("Preset " ++ pretty preset_number ++ ": '" ++ name p
         ++ "' applied")%string in
      (PyNone,
       set_status_message message ticks
         {| total_animation_time := total_animation_time a;
            animation_speed_multiplier := default 1 (global_speed p);
            model_animation_paused := default false (model_paused p);
            model_rotation_angle := model_rotation_angle a;
            model_rotation_speed := default 30 (model_speed p);
            light_orbit_enabled := default false (light_orbit p);
            light_orbit_angle := light_orbit_angle a;
            light_orbit_speed := default 45 (preset_light_orbit_speed p);
            light_bobbing_enabled := default false (light_bobbing p);
            light_bobbing_speed :=
              default 2 (preset_light_bobbing_speed p);
            light_bobbing_offset := light_bobbing_offset a;
            light_path_enabled := default false (light_path p);
            current_animation_preset := preset_number;
            animation_paused := animation_paused a;
            current_auto_rotation := current_auto_rotation a;
            last_action_message := last_action_message a;
            last_action_time := last_action_time a |})
  end.

(** ** Planar shadow projection *)

Definition vec3 : Type := Q * Q * Q.
Definition vec4 : Type := Q * Q * Q * Q.
Definition mat4 : Type := vec4 * vec4 * vec4 * vec4.

Section Shadow.

(** The square root behind [np.linalg.norm]. *)
Variable np_sqrt : Q -> Q.

(** [np.linalg.norm] of a 3-vector. *)
Definition np_linalg_norm (v : vec3) : Q :=
  let '(x, y, z) := v in np_sqrt (x * x + y * y + z * z).

(** [np.dot] of two 3-vectors. *)
Definition np_dot (u v : vec3) : Q :=
  let '(a, b, c) := u in
  let '(x, y, z) := v in
  a * x + b * y + c * z.

(** [create_shadow_matrix(light_pos, plane_point, plane_normal)], row by
    row, in exact arithmetic: the narrowing of the entries to [float32] is
    not modelled, nor the NaN entries the code gets from a normal of length
    zero (the division by zero is 0 here). *)
Definition create_shadow_matrix (light_pos : vec4) (plane_point : vec3)
    (plane_normal : vec3) : mat4 :=
  let '(nx, ny, nz) := plane_normal in
  let len := np_linalg_norm plane_normal in
  let normal : vec3 := (nx / len, ny / len, nz / len) in
  let '(a, b, c) := normal in
  let d := - np_dot normal plane_point in
  let '(lx, ly, lz, lw) := light_pos in
  let dot := a * lx + b * ly + c * lz + d * lw in
  ( (dot - a * lx, - b * lx, - c * lx, - d * lx),
    (- a * ly, dot - b * ly, - c * ly, - d * ly),
    (- a * lz, - b * lz, dot - c * lz, - d * lz),
    (- a * lw, - b * lw, - c * lw, dot - d * lw) ).

End Shadow.

(** A row of a matrix times a column vector. *)
Definition row_dot (r v : vec4) : Q :=
  let '(r0, r1, r2, r3) := r in
  let '(x, y, z, w) := v in
  r0 * x + r1 * y + r2 * z + r3 * w.

(** The matrix applied to a homogeneous point. *)
Definition mat_apply (m : mat4) (v : vec4) : vec4 :=
  let '(m0, m1, m2, m3) := m in
  (row_dot m0 v, row_dot m1 v, row_dot m2 v, row_dot m3 v).

(** The perspective divide: the 3-D point a homogeneous point stands for. *)
Definition perspective_divide (v : vec4) : vec3 :=
  let '(x, y, z, w) := v in (x / w, y / w, z / w).

(** Equality of 3-D points, coordinate by coordinate. *)
Definition vec3_eq (u v : vec3) : Prop :=
  let '(a, b, c) := u in
  let '(x, y, z) := v in
  a == x /\ b == y /\ c == z.

(** A rational square root, exact on the rationals whose numerator and
    denominator are perfect squares. *)
Definition Qsqrt_floor (q : Q) : Q :=
  Z.sqrt (Qnum q) # Pos.sqrt (Qden q).

(** ** Further functions of [graphics_utils.py] *)

(** *** Shadow projection onto the ground *)





(** Equality of homogeneous vectors, coordinate by coordinate. *)
Definition vec4_eq (u v : vec4) : Prop :=
  let '(a, b, c, d) := u in
  let '(x, y, z, w) := v in
  a == x /\ b == y /\ c == z /\ d == w.


(** *** Runs of the frame clock and of the camera *)

(** [n] wall-clock samples spaced by [d], after time [t]. *)
Fixpoint steady_samples (t d : Q) (n : nat) : list Q :=
  match n with
  | O => []
  | S n' => (t + d) :: steady_samples (t + d) d n'
  end.

(** The range of the smoothing factor of the camera: between
    [fast_mode_smoothing] and [idle_smoothing_factor]. *)
Definition smoothing_in_range (s : camera_state) : Prop :=
  fast_mode_smoothing <= current_smoothing s
  /\ current_smoothing s <= idle_smoothing_factor.

(** Frames whose wall clock never runs backwards from [t] on, all with the
    dynamic smoothing switched on (the default). *)
Fixpoint forward_frames (t : Q) (frames : list frame_input) : Prop :=
  match frames with
  | [] => True
  | i :: rest =>
      t <= frame_time i
      /\ smoothing_boost_on_input (frame_config i) = true
      /\ forward_frames (frame_time i) rest
  end.




(** Stand-ins for a sine and a cosine: constants within [-1, 1]. *)
Definition three_fifths (x : Q) : Q := 3 # 5.
Definition four_fifths (x : Q) : Q := 4 # 5.

(** *** Animation controls and the animated light *)

(** Module constants of the light animation that no code assigns. The
    module assigns [light_orbit_radius] twice while it loads (8.0, then
    6.0); the later value is the one every function sees. *)
Definition default_light_position : vec4 := (5, 5, 5, 1).
Definition light_orbit_radius : Q := 6.
Definition light_orbit_center : vec3 := (0, 3, 0).
Definition light_bobbing_amplitude : Q := 15 # 10.
Definition light_path_speed : Q := 1.
Definition light_path_scale : Q := 4.
Definition light_rotation_speed : Q := 60.
Definition light_move_speed : Q := 15 # 10.

(** The light variables the functions assign: the four-element list
    [light_position], the legacy flag [animate_light] and the legacy
    [light_rotation_angle]. *)
Record light_state := mk_light {
  light_position : vec4;
  animate_light : bool;
  light_rotation_angle : Q
}.

Definition initial_light : light_state :=
  {| light_position := (5, 5, 5, 1); animate_light := false;
     light_rotation_angle := 0 |}.

(** [light_position[0], [1], [2] = x, y, z]: the list is updated in place,
    its fourth element stays. *)
Definition set_light_xyz (x y z : Q) (l : light_state) : light_state :=
  let '(_, _, _, w) := light_position l in
  {| light_position := (x, y, z, w); animate_light := animate_light l;
     light_rotation_angle := light_rotation_angle l |}.

(** The coordinates of the light. *)
Definition light_x (l : light_state) : Q :=
  let '(x, _, _, _) := light_position l in x.
Definition light_y (l : light_state) : Q :=
  let '(_, y, _, _) := light_position l in y.
Definition light_z (l : light_state) : Q :=
  let '(_, _, z, _) := light_position l in z.
Definition light_w (l : light_state) : Q :=
  let '(_, _, _, w) := light_position l in w.

(** Python's [max(a, b)] and [min(a, b)] on floats: the first argument
    unless the second is strictly larger (smaller). *)
Definition py_max (a b : Q) : Q := if Qgt_bool b a then b else a.
Definition py_min (a b : Q) : Q := if Qlt_bool b a then b else a.

(** The assignment [light_orbit_enabled = v]. *)
Definition set_light_orbit_enabled (v : bool) (a : animation_state)
  : animation_state :=
  {| total_animation_time := total_animation_time a;
     animation_speed_multiplier := animation_speed_multiplier a;
     model_animation_paused := model_animation_paused a;
     model_rotation_angle := model_rotation_angle a;
     model_rotation_speed := model_rotation_speed a;
     light_orbit_enabled := v;
     light_orbit_angle := light_orbit_angle a;
     light_orbit_speed := light_orbit_speed a;
     light_bobbing_enabled := light_bobbing_enabled a;
     light_bobbing_speed := light_bobbing_speed a;
     light_bobbing_offset := light_bobbing_offset a;
     light_path_enabled := light_path_enabled a;
     current_animation_preset := current_animation_preset a;
     animation_paused := animation_paused a;
     current_auto_rotation := current_auto_rotation a;
     last_action_message := last_action_message a;
     last_action_time := last_action_time a |}.

(** The assignment [light_bobbing_enabled = v]. *)
Definition set_light_bobbing_enabled (v : bool) (a : animation_state)
  : animation_state :=
  {| total_animation_time := total_animation_time a;
     animation_speed_multiplier := animation_speed_multiplier a;
     model_animation_paused := model_animation_paused a;
     model_rotation_angle := model_rotation_angle a;
     model_rotation_speed := model_rotation_speed a;
     light_orbit_enabled := light_orbit_enabled a;
     light_orbit_angle := light_orbit_angle a;
     light_orbit_speed := light_orbit_speed a;
     light_bobbing_enabled := v;
     light_bobbing_speed := light_bobbing_speed a;
     light_bobbing_offset := light_bobbing_offset a;
     light_path_enabled := light_path_enabled a;
     current_animation_preset := current_animation_preset a;
     animation_paused := animation_paused a;
     current_auto_rotation := current_auto_rotation a;
     last_action_message := last_action_message a;
     last_action_time := last_action_time a |}.

(** The assignment [light_path_enabled = v]. *)
Definition set_light_path_enabled (v : bool) (a : animation_state)
  : animation_state :=
  {| total_animation_time := total_animation_time a;
     animation_speed_multiplier := animation_speed_multiplier a;
     model_animation_paused := model_animation_paused a;
     model_rotation_angle := model_rotation_angle a;
     model_rotation_speed := model_rotation_speed a;
     light_orbit_enabled := light_orbit_enabled a;
     light_orbit_angle := light_orbit_angle a;
     light_orbit_speed := light_orbit_speed a;
     light_bobbing_enabled := light_bobbing_enabled a;
     light_bobbing_speed := light_bobbing_speed a;
     light_bobbing_offset := light_bobbing_offset a;
     light_path_enabled := v;
     current_animation_preset := current_animation_preset a;
     animation_paused := animation_paused a;
     current_auto_rotation := current_auto_rotation a;
     last_action_message := last_action_message a;
     last_action_time := last_action_time a |}.

(** The assignment [animation_speed_multiplier = v]. *)
Definition set_animation_speed_multiplier (v : Q) (a : animation_state)
  : animation_state :=
  {| total_animation_time := total_animation_time a;
     animation_speed_multiplier := v;
     model_animation_paused := model_animation_paused a;
     model_rotation_angle := model_rotation_angle a;
     model_rotation_speed := model_rotation_speed a;
     light_orbit_enabled := light_orbit_enabled a;
     light_orbit_angle := light_orbit_angle a;
     light_orbit_speed := light_orbit_speed a;
     light_bobbing_enabled := light_bobbing_enabled a;
     light_bobbing_speed := light_bobbing_speed a;
     light_bobbing_offset := light_bobbing_offset a;
     light_path_enabled := light_path_enabled a;
     current_animation_preset := current_animation_preset a;
     animation_paused := animation_paused a;
     current_auto_rotation := current_auto_rotation a;
     last_action_message := last_action_message a;
     last_action_time := last_action_time a |}.

(** The assignment [light_orbit_angle = v]. *)
Definition set_light_orbit_angle (v : Q) (a : animation_state)
  : animation_state :=
  {| total_animation_time := total_animation_time a;
     animation_speed_multiplier := animation_speed_multiplier a;
     model_animation_paused := model_animation_paused a;
     model_rotation_angle := model_rotation_angle a;
     model_rotation_speed := model_rotation_speed a;
     light_orbit_enabled := light_orbit_enabled a;
     light_orbit_angle := v;
     light_orbit_speed := light_orbit_speed a;
     light_bobbing_enabled := light_bobbing_enabled a;
     light_bobbing_speed := light_bobbing_speed a;
     light_bobbing_offset := light_bobbing_offset a;
     light_path_enabled := light_path_enabled a;
     current_animation_preset := current_animation_preset a;
     animation_paused := animation_paused a;
     current_auto_rotation := current_auto_rotation a;
     last_action_message := last_action_message a;
     last_action_time := last_action_time a |}.

(** The assignment [light_bobbing_offset = v]. *)
Definition set_light_bobbing_offset (v : Q) (a : animation_state)
  : animation_state :=
  {| total_animation_time := total_animation_time a;
     animation_speed_multiplier := animation_speed_multiplier a;
     model_animation_paused := model_animation_paused a;
     model_rotation_angle := model_rotation_angle a;
     model_rotation_speed := model_rotation_speed a;
     light_orbit_enabled := light_orbit_enabled a;
     light_orbit_angle := light_orbit_angle a;
     light_orbit_speed := light_orbit_speed a;
     light_bobbing_enabled := light_bobbing_enabled a;
     light_bobbing_speed := light_bobbing_speed a;
     light_bobbing_offset := v;
     light_path_enabled := light_path_enabled a;
     current_animation_preset := current_animation_preset a;
     animation_paused := animation_paused a;
     current_auto_rotation := current_auto_rotation a;
     last_action_message := last_action_message a;
     last_action_time := last_action_time a |}.

(** [toggle_light_orbit()]. *)
Definition toggle_light_orbit (ticks : Z) (a : animation_state)
  : animation_state :=
  let a := set_light_orbit_enabled (negb (light_orbit_enabled a)) a in
  set_status_message
    ("Light Orbit: " ++ (if light_orbit_enabled a then "ON" else "OFF"))%string
    ticks a.

(** [toggle_light_bobbing()]. *)
Definition toggle_light_bobbing (ticks : Z) (a : animation_state)
  : animation_state :=
  let a := set_light_bobbing_enabled (negb (light_bobbing_enabled a)) a in
  set_status_message
    ("Light Bobbing: "
     ++ (if light_bobbing_enabled a then "ON" else "OFF"))%string
    ticks a.

(** [toggle_light_path_animation()]. *)
Definition toggle_light_path_animation (ticks : Z) (a : animation_state)
  : animation_state :=
  let a := set_light_path_enabled (negb (light_path_enabled a)) a in
  set_status_message
    ("Light Path: " ++ (if light_path_enabled a then "ON" else "OFF"))%string
    ticks a.

(** [toggle_light_animation()], the switch of the legacy light orbit. *)
Definition toggle_light_animation (ticks : Z)
    (al : animation_state * light_state) : animation_state * light_state :=
  let '(a, l) := al in
  let l := {| light_position := light_position l;
              animate_light := negb (animate_light l);
              light_rotation_angle := light_rotation_angle l |} in
  (set_status_message
     ("Legacy Light Orbit: "
      ++ (if animate_light l then "ON" else "OFF"))%string ticks a,
   l).

(** [reset_all_animations()]. It assigns neither [light_orbit_speed] nor
    [light_bobbing_speed]. *)
Definition reset_all_animations (ticks : Z)
    (al : animation_state * light_state) : animation_state * light_state :=
  let '(a, l) := al in
  let a :=
    {| total_animation_time := 0;
       animation_speed_multiplier := 1;
       model_animation_paused := false;
       model_rotation_angle := 0;
       model_rotation_speed := 30;
       light_orbit_enabled := false;
       light_orbit_angle := 0;
       light_orbit_speed := light_orbit_speed a;
       light_bobbing_enabled := false;
       light_bobbing_speed := light_bobbing_speed a;
       light_bobbing_offset := 0;
       light_path_enabled := false;
       current_animation_preset := 1;
       animation_paused := animation_paused a;
       current_auto_rotation := current_auto_rotation a;
       last_action_message := last_action_message a;
       last_action_time := last_action_time a |} in
  let l :=
    if negb (animate_light l) then
      let '(x, y, z, _) := default_light_position in set_light_xyz x y z l
    else l in
  (set_status_message "All animations reset to defaults" ticks a, l).

Section FloatFormat.

(** [format_float n x] is the text of [f"{x:.nf}"]. *)
Variable format_float : nat -> Q -> string.

(** [adjust_animation_speed(delta_speed)]. *)
Definition adjust_animation_speed (delta_speed : Q) (ticks : Z)
    (a : animation_state) : animation_state :=
  let old_speed := animation_speed_multiplier a in
  let a :=
    set_animation_speed_multiplier
      (np_clip (animation_speed_multiplier a + delta_speed)
         (1 # 10) 5) a in
  set_status_message
    ("Speed: " ++ format_float 2 old_speed ++ "x → "
     ++ format_float 2 (animation_speed_multiplier a) ++ "x")%string
    ticks a.

(** [move_light(direction)]. *)
Definition move_light (direction : string) (ticks : Z)
    (al : animation_state * light_state) : animation_state * light_state :=
  let '(a, l) := al in
  let '(x, y, z, _) := light_position l in
  let l :=
    if String.eqb direction "forward" then
      set_light_xyz x y (z - light_move_speed) l
    else if String.eqb direction "back" then
      set_light_xyz x y (z + light_move_speed) l
    else if String.eqb direction "left" then
      set_light_xyz (x - light_move_speed) y z l
    else if String.eqb direction "right" then
      set_light_xyz (x + light_move_speed) y z l
    else if String.eqb direction "up" then
      set_light_xyz x (y + light_move_speed) z l
    else if String.eqb direction "down" then
      set_light_xyz x (py_max (1 # 10) (y - light_move_speed)) z l
    else l in
  (set_status_message
     ("Light: (" ++ format_float 1 (light_x l) ++ ", "
      ++ format_float 1 (light_y l) ++ ", "
      ++ format_float 1 (light_z l) ++ ")")%string ticks a,
   l).

(** [adjust_material_shininess(change)], on the global
    [material_shininess]. *)
Definition adjust_material_shininess (change : Q) (ticks : Z)
    (am : animation_state * Q) : animation_state * Q :=
  let '(a, material_shininess) := am in
  let material_shininess :=
    py_max 1 (py_min 128 (material_shininess + change)) in
  (set_status_message
     ("Shininess: " ++ format_float 0 material_shininess)%string ticks a,
   material_shininess).

End FloatFormat.

Section LightAnimation.

(** [np.radians], [np.sin], [np.cos] and [np.pi]. *)
Variables np_radians np_sin np_cos : Q -> Q.
Variable np_pi : Q.

(** [update_light_animation()]; [dt] is the global [delta_time]. *)
Definition update_light_animation (dt : Q)
    (al : animation_state * light_state) : animation_state * light_state :=
  let '(a, l) := al in
  if animate_light l then (a, l)
  else if Qgt_bool dt 0 then
    let effective_time_delta := dt * animation_speed_multiplier a in
    let '(bx, by_, bz, _) := default_light_position in
    let '(cx, cy, cz) := light_orbit_center in
    let '(a, bx, by_, bz) :=
      if light_orbit_enabled a then
        let angle :=
          py_mod (light_orbit_angle a
                  + light_orbit_speed a * effective_time_delta) 360 in
        let angle_rad := np_radians angle in
        (set_light_orbit_angle angle a,
         cx + light_orbit_radius * np_cos angle_rad,
         cy,
         cz + light_orbit_radius * np_sin angle_rad)
      else (a, bx, by_, bz) in
    let '(a, by_) :=
      if light_bobbing_enabled a then
        let offset :=
          light_bobbing_amplitude
          * np_sin (2 * np_pi * light_bobbing_speed a
                    * total_animation_time a) in
        (set_light_bobbing_offset offset a, by_ + offset)
      else (a, by_) in
    let '(bx, bz) :=
      if light_path_enabled a then
        let path_time := total_animation_time a * light_path_speed in
        let path_x := light_path_scale * np_sin path_time in
        let path_z := light_path_scale * np_sin (2 * path_time) / 2 in
        (bx + path_x, bz + path_z)
      else (bx, bz) in
    if light_orbit_enabled a || light_bobbing_enabled a
       || light_path_enabled a
    then (a, set_light_xyz bx (py_max (5 # 10) by_) bz l)
    else (a, l)
  else (a, l).

(** What [update_lighting_system()] hands to OpenGL. *)
Inductive gl_light_call :=
  | GlLightPosition (position : vec4).

(** [update_lighting_system()]: the legacy light orbit, the animated light,
    and the position it then sends to OpenGL when [lighting_enabled]. *)
Definition update_lighting_system (lighting_enabled : bool) (dt : Q)
    (al : animation_state * light_state)
  : list gl_light_call * (animation_state * light_state) :=
  let '(a, l) := al in
  let l :=
    if animate_light l && Qgt_bool dt 0 then
      let angle :=
        py_mod (light_rotation_angle l + light_rotation_speed * dt) 360 in
      let angle_rad := np_radians angle in
      set_light_xyz (light_orbit_radius * np_cos angle_rad) 5
        (light_orbit_radius * np_sin angle_rad)
        {| light_position := light_position l;
           animate_light := animate_light l;
           light_rotation_angle := angle |}
    else l in
  let '(a, l) := update_light_animation dt (a, l) in
  (if lighting_enabled then [GlLightPosition (light_position l)] else [],
   (a, l)).

End LightAnimation.

(** *** The controls of the animated viewer as one state machine *)

(** The animation state, the light and the material shininess. *)
Record world := mk_world {
  w_animation : animation_state;
  w_light : light_state;
  w_shininess : Q
}.

Definition initial_world : world :=
  {| w_animation := initial_animation; w_light := initial_light;
     w_shininess := 32 |}.

(** What the viewer can do to it: render a frame, or react to a key. *)
Inductive control :=
  | RenderFrame (dt : Q) (lighting_enabled : bool)
  | ToggleModel
  | ToggleOrbit
  | ToggleBobbing
  | TogglePath
  | ToggleLegacyLight
  | AdjustSpeed (delta_speed : Q)
  | ApplyPreset (preset_number : Z)
  | ResetAnimations
  | MoveLight (direction : string)
  | AdjustShininess (change : Q).

Section Controls.

Variables np_radians np_sin np_cos : Q -> Q.
Variable np_pi : Q.
Variable format_float : nat -> Q -> string.

(** One control; [ticks] is what [pygame.time.get_ticks()] returns when
    the control sets the status message. A rendered frame runs
    [update_lighting_system()] and then [update_all_animation_systems()],
    as [render()] does. *)
Definition do_control (c : control) (ticks : Z) (w : world) : world :=
  let a := w_animation w in
  let l := w_light w in
  let m := w_shininess w in
  match c with
  | RenderFrame dt lighting_enabled =>
      let '(_, (a, l)) :=
        update_lighting_system np_radians np_sin np_cos np_pi
          lighting_enabled dt (a, l) in
      {| w_animation := update_all_animation_systems np_sin dt a;
         w_light := l; w_shininess := m |}
  | ToggleModel =>
      {| w_animation := toggle_model_animation ticks a;
         w_light := l; w_shininess := m |}
  | ToggleOrbit =>
      {| w_animation := toggle_light_orbit ticks a;
         w_light := l; w_shininess := m |}
  | ToggleBobbing =>
      {| w_animation := toggle_light_bobbing ticks a;
         w_light := l; w_shininess := m |}
  | TogglePath =>
      {| w_animation := toggle_light_path_animation ticks a;
         w_light := l; w_shininess := m |}
  | ToggleLegacyLight =>
      let '(a, l) := toggle_light_animation ticks (a, l) in
      {| w_animation := a; w_light := l; w_shininess := m |}
  | AdjustSpeed delta_speed =>
      {| w_animation := adjust_animation_speed format_float delta_speed
                          ticks a;
         w_light := l; w_shininess := m |}
  | ApplyPreset preset_number =>
      {| w_animation := snd (apply_animation_preset preset_number ticks a);
         w_light := l; w_shininess := m |}
  | ResetAnimations =>
      let '(a, l) := reset_all_animations ticks (a, l) in
      {| w_animation := a; w_light := l; w_shininess := m |}
  | MoveLight direction =>
      let '(a, l) := move_light format_float direction ticks (a, l) in
      {| w_animation := a; w_light := l; w_shininess := m |}
  | AdjustShininess change =>
      let '(a, m) := adjust_material_shininess format_float change ticks
                       (a, m) in
      {| w_animation := a; w_light := l; w_shininess := m |}
  end.

(** A session: controls with the tick counts at which they happen. *)
Definition run_controls (cs : list (control * Z)) (w : world) : world :=
  fold_left (fun w ct => do_control (fst ct) (snd ct) w) cs w.

End Controls.

(** The ranges the animation state keeps. *)
Definition animation_in_range (a : animation_state) : Prop :=
  (1 # 10 <= animation_speed_multiplier a
   /\ animation_speed_multiplier a <= 5)
  /\ (0 <= model_rotation_angle a /\ model_rotation_angle a < 360)
  /\ (0 <= light_orbit_angle a /\ light_orbit_angle a < 360)
  /\ (0 <= current_auto_rotation a /\ current_auto_rotation a < 360)
  /\ (model_animation_paused a = false -> 1 # 10 < model_rotation_speed a).

(** The ranges the light and the material keep. *)
Definition light_in_range (l : light_state) (shininess : Q) : Prop :=
  1 # 10 <= light_y l
  /\ light_w l == 1
  /\ (0 <= light_rotation_angle l /\ light_rotation_angle l < 360)
  /\ (1 <= shininess /\ shininess <= 128).

Definition world_in_range (w : world) : Prop :=
  animation_in_range (w_animation w)
  /\ light_in_range (w_light w) (w_shininess w).

(** A float formatting that prints nothing, where the status message is
    not observed. *)
Definition no_format (digits : nat) (x : Q) : string := "".

(** A control other than the reset of the animations. *)
Definition keeps_time (ct : control * Z) : Prop :=
  fst ct <> ResetAnimations.

(** Whether some channel of the light animation is on. *)
Definition light_animated (a : animation_state) : bool :=
  light_orbit_enabled a || light_bobbing_enabled a || light_path_enabled a.

(** The pairs of directions of [move_light] in which the second undoes the
    first. *)
Definition opposite_moves : list (string * string) :=
  [("forward", "back"); ("back", "forward"); ("left", "right");
   ("right", "left"); ("up", "down")]%string.

(** The directions [move_light] knows. *)
Definition light_directions : list string :=
  ["forward"; "back"; "left"; "right"; "up"; "down"]%string.

(** *** Model geometry *)

(** [np.min] and [np.max] of a non-empty column of floats. *)
Definition column_min (x : Q) (xs : list Q) : Q := fold_left Qmin xs x.
Definition column_max (x : Q) (xs : list Q) : Q := fold_left Qmax xs x.

(** The three coordinates of a vertex. *)
Definition vx (v : vec3) : Q := let '(x, _, _) := v in x.
Definition vy (v : vec3) : Q := let '(_, y, _) := v in y.
Definition vz (v : vec3) : Q := let '(_, _, z) := v in z.

(** [center_and_scale_model(vertices)], on the rows of the N x 3 array, in
    exact arithmetic. *)
Definition center_and_scale_model (vertices : list vec3) : list vec3 :=
  match vertices with
  | [] => vertices
  | v :: rest =>
      let min_coords : vec3 :=
        (column_min (vx v) (map vx rest), column_min (vy v) (map vy rest),
         column_min (vz v) (map vz rest)) in
      let max_coords : vec3 :=
        (column_max (vx v) (map vx rest), column_max (vy v) (map vy rest),
         column_max (vz v) (map vz rest)) in
      let center : vec3 :=
        ((vx min_coords + vx max_coords) / 2,
         (vy min_coords + vy max_coords) / 2,
         (vz min_coords + vz max_coords) / 2) in
      let centered_vertices :=
        map (fun u => (vx u - vx center, vy u - vy center, vz u - vz center))
          vertices in
      let max_dimension :=
        Qmax (Qmax (vx max_coords - vx min_coords)
                (vy max_coords - vy min_coords))
          (vz max_coords - vz min_coords) in
      if Qgt_bool max_dimension 0 then
        let scale_factor := 4 / max_dimension in
        map (fun u => (vx u * scale_factor, vy u * scale_factor,
                       vz u * scale_factor))
          centered_vertices
      else centered_vertices
  end.

(** A vertex whose three coordinates lie within [-2, 2]. *)
Definition in_view_box (v : vec3) : Prop :=
  (- (2) <= vx v /\ vx v <= 2)
  /\ (- (2) <= vy v /\ vy v <= 2)
  /\ (- (2) <= vz v /\ vz v <= 2).

(** Indexing a numpy array of [n] rows with a Python integer: a negative
    index counts from the end, an index out of range raises [IndexError]
    ([None] here). *)
Definition np_row (vertices : list vec3) (i : Z) : option vec3 :=
  let n := Z.of_nat (length vertices) in
  if (0 <=? i)%Z && (i <? n)%Z then nth_error vertices (Z.to_nat i)
  else if (- n <=? i)%Z && (i <? 0)%Z then
    nth_error vertices (Z.to_nat (n + i))
  else None.

(** [np.cross] and the difference of two vertices. *)
Definition np_cross (u v : vec3) : vec3 :=
  let '(a, b, c) := u in
  let '(x, y, z) := v in
  (b * z - c * y, c * x - a * z, a * y - b * x).

Definition vec3_sub (u v : vec3) : vec3 :=
  let '(a, b, c) := u in
  let '(x, y, z) := v in
  (a - x, b - y, c - z).

Section FaceNormals.

Variable np_sqrt : Q -> Q.

(** The normal [calculate_face_normals] computes for one face: from its
    first three vertices, normalised when its length is positive; [0, 0, 1]
    for a face of fewer than three vertices. The cross product and the
    division are exact here; which faces raise [IndexError] does not depend
    on the arithmetic. *)
Definition face_normal (vertices : list vec3) (face : list Z)
  : option vec3 :=
  match face with
  | i0 :: i1 :: i2 :: _ =>
      match np_row vertices i0, np_row vertices i1, np_row vertices i2 with
      | Some v0, Some v1, Some v2 =>
          let edge1 := vec3_sub v1 v0 in
          let edge2 := vec3_sub v2 v0 in
          let normal := np_cross edge1 edge2 in
          let length := np_sqrt (np_dot normal normal) in
          Some (if Qgt_bool length 0
                then (vx normal / length, vy normal / length,
                      vz normal / length)
                else normal)
      | _, _, _ => None
      end
  | _ => Some (0, 0, 1)
  end.

(** [calculate_face_normals(vertices, faces)]; [None] when an index of a
    face raises [IndexError]. *)
Fixpoint calculate_face_normals (vertices : list vec3)
    (faces : list (list Z)) : option (list vec3) :=
  match faces with
  | [] => Some []
  | face :: rest =>
      match face_normal vertices face with
      | None => None
      | Some normal =>
          match calculate_face_normals vertices rest with
          | None => None
          | Some normals => Some (normal :: normals)
          end
      end
  end.

End FaceNormals.

(** A triangle with its three corners, for the examples. *)
Definition unit_triangle : list vec3 := [(0, 0, 0); (1, 0, 0); (0, 1, 0)].

(** What the normal [n] computed for [face] satisfies: it is orthogonal to
    the two edges of the face that start at its first vertex; or it is
    [0, 0, 1] for a face of fewer than three vertices. *)
Definition normal_fits (vertices : list vec3) (face : list Z) (n : vec3)
  : Prop :=
  match face with
  | i0 :: i1 :: i2 :: _ =>
      forall v0 v1 v2,
        np_row vertices i0 = Some v0 -> np_row vertices i1 = Some v1 ->
        np_row vertices i2 = Some v2 ->
        np_dot n (vec3_sub v1 v0) == 0 /\ np_dot n (vec3_sub v2 v0) == 0
  | _ => n = (0, 0, 1)
  end.

(** An index numpy accepts for an array of [n] rows. *)
Definition index_in_range (vertices : list vec3) (i : Z) : Prop :=
  (- Z.of_nat (length vertices) <= i < Z.of_nat (length vertices))%Z.

(** A face whose first three indices, if it has three, are accepted. *)
Definition face_in_range (vertices : list vec3) (face : list Z) : Prop :=
  match face with
  | i0 :: i1 :: i2 :: _ =>
      index_in_range vertices i0 /\ index_in_range vertices i1
      /\ index_in_range vertices i2
  | _ => True
  end.

(** *** The per-frame updates of [render()] *)

(** The clock, the camera and the animated world of a viewer. *)
Record viewer := mk_viewer {
  v_clock : clock_state;
  v_camera : camera_state;
  v_world : world
}.

Definition initial_viewer : viewer :=
  {| v_clock := initial_clock; v_camera := initial_camera;
     v_world := initial_world |}.

(** What a rendered frame reads: the wall clock when
    [calculate_delta_time()] samples it and when
    [update_dynamic_smoothing()] does, the pressed keys, the turbo flag,
    the tuning and [lighting_enabled]. *)
Record render_input := mk_render {
  r_clock_time : Q;
  r_smoothing_time : Q;
  r_keys : gset Z;
  r_turbo : bool;
  r_config : camera_config;
  r_lighting_enabled : bool
}.

Section Render.

Variables np_radians np_sin np_cos : Q -> Q.
Variable np_pi : Q.
Variable format_float : nat -> Q -> string.

(** The updates at the head of [render()]: [calculate_delta_time()],
    [update_camera_position()], [update_lighting_system()] and
    [update_all_animation_systems()], the last three reading the delta the
    first one stored. *)
Definition render_updates (r : render_input) (v : viewer) : viewer :=
  let clock := calculate_delta_time (r_clock_time r) (v_clock v) in
  let dt := delta_time clock in
  let camera :=
    update_camera_position np_radians np_sin np_cos
      {| keys_pressed := r_keys r; turbo_active := r_turbo r;
         frame_delta := dt; frame_time := r_smoothing_time r;
         frame_config := r_config r |}
      (v_camera v) in
  {| v_clock := clock;
     v_camera := camera;
     v_world :=
       do_control np_radians np_sin np_cos np_pi format_float
         (RenderFrame dt (r_lighting_enabled r)) 0 (v_world v) |}.

Definition run_render (rs : list render_input) (v : viewer) : viewer :=
  fold_left (fun v r => render_updates r v) rs v.

End Render.

(** *** Hot reload *)

(** [check_for_file_changes()]: the value returned and the new
    [last_modified]; [mtime] is what [os.path.getmtime] returns, [None] when
    it raises [OSError]. *)
Definition check_for_file_changes (mtime : option Q) (last_modified : Q)
  : bool * Q :=
  match mtime with
  | Some current_modified =>
      if Qeq_bool last_modified 0 then (false, current_modified)
      else if Qgt_bool current_modified last_modified
      then (true, current_modified)
      else (false, last_modified)
  | None => (false, last_modified)
  end.

(** ** The yaw of the camera in binary64 arithmetic

    The embedding above computes with exact rationals. The functions below
    are [update_dynamic_smoothing] and [update_camera_position] once more,
    on IEEE binary64 numbers (Rocq's primitive floats), operation by
    operation in the order Python evaluates them; they are used to evaluate
    the code where rounding decides the result. A decimal literal denotes
    the double nearest to it, as it does in Python. *)

#[local] Set Warnings "-inexact-float".

(** C's [fmod] on doubles: the remainder of the truncated division, which
    is always exact; computed on the integer significands. *)
Definition f64_fmod (x y : float) : float :=
  match Prim2SF x, Prim2SF y with
  | S754_nan, _ => nan
  | _, S754_nan => nan
  | S754_infinity _, _ => nan
  | _, S754_zero _ => nan
  | S754_zero _, _ => x
  | S754_finite _ _ _, S754_infinity _ => x
  | S754_finite sx mx ex, S754_finite _ my ey =>
      let e := Z.min ex ey in
      let r := Z.modulo (Z.pos mx * 2 ^ (ex - e)) (Z.pos my * 2 ^ (ey - e)) in
      match r with
      | Z.pos p => SF2Prim (S754_finite sx p e)
      | _ => if sx then neg_zero else zero
      end
  end.

(** [x % m] on [float]/[np.float64] values: [fmod], moved by [m] when its
    sign differs from the sign of [m]. *)
Definition f64_py_mod (x m : float) : float :=
  let r := f64_fmod x m in
  if PrimFloat.eqb m 0 then r
  else if PrimFloat.eqb r 0 then (if get_sign m then neg_zero else zero)
  else if xorb (PrimFloat.ltb m 0) (PrimFloat.ltb r 0)
  then PrimFloat.add r m
  else r.

(** [np.maximum], [np.minimum] and [np.clip]. *)
Definition f64_maximum (a b : float) : float :=
  if PrimFloat.leb b a || is_nan a then a else b.
Definition f64_minimum (a b : float) : float :=
  if PrimFloat.leb a b || is_nan a then a else b.
Definition f64_np_clip (x lo hi : float) : float :=
  f64_minimum (f64_maximum x lo) hi.

Record f64_config := mk_f64_config {
  f64_camera_speed : float;
  f64_orbit_speed : float;
  f64_zoom_speed : float;
  f64_pitch_speed : float;
  f64_forward_speed_multiplier : float;
  f64_strafe_speed_multiplier : float;
  f64_vertical_speed_multiplier : float;
  f64_smoothing_boost_on_input : bool;
  f64_movement_smoothing : float
}.

Definition f64_default_config : f64_config :=
  {| f64_camera_speed := 7;
     f64_orbit_speed := 100;
     f64_zoom_speed := 3.5;
     f64_pitch_speed := 70;
     f64_forward_speed_multiplier := 1.3;
     f64_strafe_speed_multiplier := 1.3;
     f64_vertical_speed_multiplier := 1.6;
     f64_smoothing_boost_on_input := true;
     f64_movement_smoothing := 0.82 |}%float.

Record f64_camera := mk_f64_camera {
  f64_yaw : float;
  f64_pitch : float;
  f64_distance : float;
  f64_rotation_velocity : float * float;
  f64_zoom_velocity : float;
  f64_current_smoothing : float;
  f64_last_input_time : float;
  f64_eye : float * float * float
}.

Definition f64_initial_camera : f64_camera :=
  {| f64_yaw := 0; f64_pitch := 0; f64_distance := 8;
     f64_rotation_velocity := (0, 0); f64_zoom_velocity := 0;
     f64_current_smoothing := 0.82; f64_last_input_time := 0;
     f64_eye := (0, 0, 8) |}%float.

Record f64_frame := mk_f64_frame {
  f64_keys_pressed : gset Z;
  f64_turbo_active : bool;
  f64_delta_time : float;
  f64_time : float;
  f64_frame_config : f64_config
}.

(** [update_dynamic_smoothing()] on doubles: the new [current_smoothing]
    and [last_input_time]. *)
Definition f64_update_dynamic_smoothing (i : f64_frame) (s : f64_camera)
  : float * float :=
  let cfg := f64_frame_config i in
  let current_time := f64_time i in
  if negb (f64_smoothing_boost_on_input cfg) then
    (f64_movement_smoothing cfg, f64_last_input_time s)
  else
    let has_input := bool_decide (f64_keys_pressed i <> empty) in
    let current_speed :=
      if f64_turbo_active i then (f64_camera_speed cfg * 3)%float
      else f64_camera_speed cfg in
    let fast := PrimFloat.ltb 15 current_speed in
    let lit := if has_input then current_time else f64_last_input_time s in
    let target_smoothing :=
      (if has_input then
         if fast || f64_turbo_active i then 0.08 else 0.15
       else
         let time_since_input := current_time - f64_last_input_time s in
         if PrimFloat.ltb time_since_input 0.2 then
           let blend_factor := time_since_input / 0.2 in
           if fast then 0.08 + (0.15 - 0.08) * blend_factor
           else 0.15 + (0.88 - 0.15) * blend_factor
         else 0.88)%float in
    let transition_speed := (if has_input then 0.15 else 0.25)%float in
    ((f64_current_smoothing s * (1 - transition_speed)
      + target_smoothing * transition_speed)%float,
     lit).

Section Binary64Trigonometry.

Variables f64_radians f64_sin f64_cos : float -> float.

(** [update_camera_position()] on doubles. *)
Definition f64_update_camera_position (i : f64_frame) (s : f64_camera)
  : f64_camera :=
  let '(cs, lit) := f64_update_dynamic_smoothing i s in
  let cfg := f64_frame_config i in
  let turbo (speed : float) : float :=
    if f64_turbo_active i then (speed * 3)%float else speed in
  let effective_orbit_speed :=
    turbo (f64_orbit_speed cfg * f64_strafe_speed_multiplier cfg)%float in
  let effective_zoom_speed :=
    turbo (f64_zoom_speed cfg * f64_forward_speed_multiplier cfg)%float in
  let effective_pitch_speed :=
    turbo (f64_pitch_speed cfg * f64_vertical_speed_multiplier cfg)%float in
  let pressed (key : Z) : bool := bool_decide (key ∈ f64_keys_pressed i) in
  let yaw_target := 0%float in
  let yaw_target := if pressed K_a then effective_orbit_speed
                    else yaw_target in
  let yaw_target := if pressed K_d then (- effective_orbit_speed)%float
                    else yaw_target in
  let pitch_target := 0%float in
  let pitch_target := if pressed K_q then effective_pitch_speed
                      else pitch_target in
  let pitch_target := if pressed K_e then (- effective_pitch_speed)%float
                      else pitch_target in
  let filter (v target : float) : float :=
    (v * cs + target * (1 - cs))%float in
  let rv := (filter (fst (f64_rotation_velocity s)) yaw_target,
             filter (snd (f64_rotation_velocity s)) pitch_target) in
  let dt := f64_delta_time i in
  let moving := PrimFloat.ltb 0 dt in
  let yaw :=
    if moving then f64_py_mod (f64_yaw s + fst rv * dt)%float 360
    else f64_yaw s in
  let pitch :=
    if moving
    then f64_np_clip (f64_pitch s + snd rv * dt)%float (-89) 89
    else f64_pitch s in
  let zoom_target := 0%float in
  let zoom_target := if pressed K_w then (- effective_zoom_speed)%float
                     else zoom_target in
  let zoom_target := if pressed K_s then effective_zoom_speed
                     else zoom_target in
  let zv := filter (f64_zoom_velocity s) zoom_target in
  let distance :=
    if moving then f64_np_clip (f64_distance s + zv * dt)%float 2 50
    else f64_distance s in
  let yaw_rad := f64_radians yaw in
  let pitch_rad := f64_radians pitch in
  {| f64_yaw := yaw; f64_pitch := pitch; f64_distance := distance;
     f64_rotation_velocity := rv; f64_zoom_velocity := zv;
     f64_current_smoothing := cs; f64_last_input_time := lit;
     f64_eye :=
       ((0 + distance * f64_cos pitch_rad * f64_sin yaw_rad)%float,
        (0 + distance * f64_sin pitch_rad)%float,
        (0 + distance * f64_cos pitch_rad * f64_cos yaw_rad)%float) |}.

Definition f64_run_camera (frames : list f64_frame) (s : f64_camera)
  : f64_camera :=
  fold_left (fun s i => f64_update_camera_position i s) frames s.

End Binary64Trigonometry.

(** A delta the frame clock can report after its first call: positive and
    within the clamp bounds. *)
Definition f64_delta_in_clamp (i : f64_frame) : bool :=
  PrimFloat.ltb 0 (f64_delta_time i)
  && PrimFloat.leb 0.001 (f64_delta_time i)
  && PrimFloat.leb (f64_delta_time i) 0.033.

(** Two frames in the default tuning, without turbo: A held for the first
    delta the frame clock reports, [1.0 / 60.0], then D held for
    0.02485816720733179 s (the double [0x1.9746b5cc6a53cp-6]). *)
Definition f64_two_frames (t1 t2 : float) : list f64_frame :=
  [ {| f64_keys_pressed := {[ K_a ]}; f64_turbo_active := false;
       f64_delta_time := (1 / 60)%float; f64_time := t1;
       f64_frame_config := f64_default_config |};
    {| f64_keys_pressed := {[ K_d ]}; f64_turbo_active := false;
       f64_delta_time := 0.02485816720733179%float; f64_time := t2;
       f64_frame_config := f64_default_config |} ].

(** * Properties *)

(** ** Numeric primitives *)

Lemma Qgt_bool_true (x y : Q) : Qgt_bool x y = true <-> y < x.
Proof.
  unfold Qgt_bool. rewrite negb_true_iff.
  destruct (Qle_bool x y) eqn:E.
  - apply Qle_bool_iff in E. split; [discriminate | intros H; lra].
  - split; [intros _ | reflexivity].
    apply Qnot_le_lt. intros H. apply Qle_bool_iff in H. congruence.
Qed.

Lemma Qgt_bool_false (x y : Q) : Qgt_bool x y = false <-> x <= y.
Proof.
  unfold Qgt_bool. rewrite negb_false_iff. apply Qle_bool_iff.
Qed.

Lemma Qlt_bool_true (x y : Q) : Qlt_bool x y = true <-> x < y.
Proof. apply (Qgt_bool_true y x). Qed.

Lemma Qlt_bool_false (x y : Q) : Qlt_bool x y = false <-> y <= x.
Proof. apply (Qgt_bool_false y x). Qed.

Lemma np_clip_bounds (x lo hi : Q) :
  lo <= hi -> lo <= np_clip x lo hi /\ np_clip x lo hi <= hi.
Proof.
  intros H. unfold np_clip. split.
  - apply Q.min_glb; [apply Q.le_max_r | exact H].
  - apply Q.le_min_r.
Qed.

Lemma np_clip_inside (x lo hi : Q) :
  lo <= x -> x <= hi -> np_clip x lo hi == x.
Proof.
  intros H1 H2. unfold np_clip.
  rewrite (Q.max_l x lo) by exact H1. apply Q.min_l. exact H2.
Qed.

Lemma np_clip_above (x lo hi : Q) :
  lo <= hi -> hi <= x -> np_clip x lo hi == hi.
Proof.
  intros H1 H2. unfold np_clip. apply Q.min_r.
  apply Qle_trans with x; [exact H2 | apply Q.le_max_l].
Qed.

Lemma np_clip_below (x lo hi : Q) :
  lo <= hi -> x <= lo -> np_clip x lo hi == lo.
Proof.
  intros H1 H2. unfold np_clip.
  rewrite (Q.max_r x lo) by exact H2. apply Q.min_l. exact H1.
Qed.

(** Python's remainder by a positive modulus lies in [0, m). *)
Lemma py_mod_bounds (x m : Q) :
  0 < m -> 0 <= py_mod x m /\ py_mod x m < m.
Proof.
  intros Hm. unfold py_mod.
  pose proof (Qfloor_le (x / m)) as Hlo.
  pose proof (Qlt_floor (x / m)) as Hhi.
  rewrite inject_Z_plus in Hhi.
  set (k := inject_Z (Qfloor (x / m))) in *.
  assert (Hx : x == m * (x / m)) by (field; lra).
  assert (H1 : m * k <= m * (x / m)) by (apply Qmult_le_l; assumption).
  assert (H2 : m * (x / m) < m * (k + inject_Z 1))
    by (apply Qmult_lt_l; assumption).
  change (inject_Z 1) with 1 in H2.
  split; lra.
Qed.

(** A remainder that is already in range is left alone. *)
Lemma py_mod_small (x m : Q) : 0 <= x -> x < m -> py_mod x m == x.
Proof.
  intros H0 Hm. unfold py_mod.
  assert (Hpos : 0 < m) by lra.
  assert (Hk : Qfloor (x / m) = 0%Z).
  { assert (Hd0 : 0 <= x / m) by (apply Qle_shift_div_l; lra).
    assert (Hd1 : x / m < 1) by (apply Qlt_shift_div_r; lra).
    pose proof (Qfloor_le (x / m)) as Hlo.
    pose proof (Qlt_floor (x / m)) as Hhi.
    assert (A : (Qfloor (x / m) < 1)%Z).
    { rewrite Zlt_Qlt. change (inject_Z 1) with 1. lra. }
    assert (B : (-1 < Qfloor (x / m))%Z).
    { rewrite Zlt_Qlt. rewrite inject_Z_plus in Hhi.
      change (inject_Z 1) with 1 in Hhi. change (inject_Z (-1)) with (-1).
      lra. }
    lia. }
  rewrite Hk. change (inject_Z 0) with 0. ring.
Qed.

(** ** Frame clock *)

(** Whatever branch a call takes, it leaves a delta in range, provided the
    previous delta was in range whenever the blend uses it. *)
Lemma calculate_delta_time_in_range (t : Q) (c : clock_state) :
  Qeq_bool (last_frame_time c) 0 = true \/ delta_in_range c ->
  delta_in_range (calculate_delta_time t c).
Proof.
  intros H. unfold delta_in_range, calculate_delta_time. cbn [delta_time].
  destruct (Qeq_bool (last_frame_time c) 0) eqn:Efirst.
  - split; [apply Qle_bool_iff | apply Qle_bool_iff]; reflexivity.
  - destruct H as [H | [Hlo Hhi]]; [discriminate |].
    destruct (Qgt_bool (raw_delta t c) (33 # 1000)) eqn:Ebig.
    + split; apply Qle_bool_iff; reflexivity.
    + destruct (Qlt_bool (raw_delta t c) (1 # 1000)) eqn:Esmall.
      * split; apply Qle_bool_iff; reflexivity.
      * apply Qgt_bool_false in Ebig. apply Qlt_bool_false in Esmall.
        split; lra.
Qed.

Lemma run_clock_in_range (ts : list Q) (c : clock_state) :
  delta_in_range c -> delta_in_range (run_clock ts c).
Proof.
  revert c. induction ts as [| t ts IH]; intros c Hc; [exact Hc |].
  cbn. apply IH. apply calculate_delta_time_in_range. right. exact Hc.
Qed.

(** C2. The first call of the frame clock (the one that finds
    [last_frame_time] at 0) reports exactly 1/60 s, and after that call and
    any number of further calls, whatever the wall clock returned, the
    reported delta lies in [0.001, 0.033]. *)
Theorem C2_first_delta_then_bounded (t0 : Q) (later : list Q) :
  delta_time (calculate_delta_time t0 initial_clock) = 1 / 60
  /\ (1 # 1000) <= delta_time (run_clock (t0 :: later) initial_clock)
  /\ delta_time (run_clock (t0 :: later) initial_clock) <= (33 # 1000).
Proof.
  split; [reflexivity |].
  change (delta_in_range (run_clock (t0 :: later) initial_clock)).
  cbn. apply run_clock_in_range.
  apply calculate_delta_time_in_range. left. reflexivity.
Qed.

(** C3, as stated, fails: a call that comes one second after the first one
    (raw delta 1 > 0.033) reports 0.033, not the blend
    [prev * 0.7 + 0.033 * 0.3]. *)
Lemma C3_counterexample_stall :
  Qeq_bool (last_frame_time clock_after_first) 0 = false
  /\ delta_time (calculate_delta_time 2 clock_after_first) == (33 # 1000)
  /\ ~ delta_time (calculate_delta_time 2 clock_after_first)
       == delta_time clock_after_first * (7 # 10)
          + clamped_raw 2 clock_after_first * (3 # 10).
Proof.
  split; [reflexivity |]. split; [reflexivity |].
  vm_compute. discriminate.
Qed.

(** C3, amended. On a call after the first, the blend
    [prev * 0.7 + raw * 0.3] is applied exactly when the raw delta lies
    within [0.001, 0.033] (where clamping leaves it as it is); a raw delta
    above 0.033 makes the reported delta 0.033 itself and one below 0.001
    makes it 0.001 itself, with no blending. *)
Theorem C3_blend_only_within_bounds (t : Q) (c : clock_state) :
  Qeq_bool (last_frame_time c) 0 = false ->
  let raw := raw_delta t c in
  let reported := delta_time (calculate_delta_time t c) in
  ((33 # 1000) < raw -> reported == (33 # 1000))
  /\ (raw < (1 # 1000) -> reported == (1 # 1000))
  /\ ((1 # 1000) <= raw /\ raw <= (33 # 1000) ->
      clamped_raw t c == raw
      /\ reported == delta_time c * (7 # 10) + clamped_raw t c * (3 # 10)).
Proof.
  intros Hlater raw reported. subst reported.
  unfold calculate_delta_time. cbn [delta_time]. rewrite Hlater.
  fold raw.
  destruct (Qgt_bool raw (33 # 1000)) eqn:Ebig;
    destruct (Qlt_bool raw (1 # 1000)) eqn:Esmall;
    try apply Qgt_bool_true in Ebig; try apply Qgt_bool_false in Ebig;
    try apply Qlt_bool_true in Esmall; try apply Qlt_bool_false in Esmall.
  - lra.
  - repeat split; try reflexivity; intros; lra.
  - repeat split; try reflexivity; intros; lra.
  - assert (Hc : clamped_raw t c == raw).
    { unfold clamped_raw. fold raw. apply np_clip_inside; assumption. }
    split; [intros; lra |]. split; [intros; lra |].
    intros _. split; [exact Hc |]. rewrite Hc. reflexivity.
Qed.

Lemma C3_blend_only_within_bounds_witness :
  Qeq_bool (last_frame_time clock_after_first) 0 = false
  /\ delta_time (calculate_delta_time (1 + (1 # 50)) clock_after_first)
     == delta_time clock_after_first * (7 # 10)
        + clamped_raw (1 + (1 # 50)) clock_after_first * (3 # 10).
Proof.
  split; [reflexivity |].
  apply (C3_blend_only_within_bounds (1 + (1 # 50)) clock_after_first
           eq_refl).
  split; vm_compute; discriminate.
Defined.

(** ** Orbital camera: the range invariant *)

Lemma update_dynamic_smoothing_pose (i : frame_input) (s : camera_state) :
  camera_yaw (update_dynamic_smoothing i s) = camera_yaw s
  /\ camera_pitch (update_dynamic_smoothing i s) = camera_pitch s
  /\ camera_distance (update_dynamic_smoothing i s) = camera_distance s
  /\ rotation_velocity (update_dynamic_smoothing i s) = rotation_velocity s
  /\ zoom_velocity (update_dynamic_smoothing i s) = zoom_velocity s.
Proof.
  unfold update_dynamic_smoothing.
  destruct (negb (smoothing_boost_on_input (frame_config i)));
    repeat split; reflexivity.
Qed.

Section CameraBounds.

Variables np_radians np_sin np_cos : Q -> Q.

Let step := update_camera_position np_radians np_sin np_cos.



End CameraBounds.


(** The remainder on doubles at a few ordinary arguments, and at the one
    the camera trips over: a tiny negative dividend is moved up by 360 and
    the sum rounds to 360.0 itself. *)
Example f64_py_mod_examples :
  f64_py_mod 725.5 360 = 5.5%float
  /\ f64_py_mod (-10) 360 = 350%float
  /\ f64_py_mod 360 360 = 0%float
  /\ f64_py_mod 0.6077500000000001 360 = 0.6077500000000001%float
  /\ f64_py_mod (-0x1p-53) 360 = 360%float.
Proof. repeat split; vm_compute; reflexivity. Qed.

(** C1, the defect. The pitch and the distance keep their ranges, but the
    yaw does not stay in [0, 360): in binary64 arithmetic two ordinary
    frames from the default camera leave [camera_yaw] at 360.0 exactly.
    Both deltas are positive and within the clamp bounds [0.001, 0.033] of
    the frame clock. The first frame (A held, delta [1.0 / 60.0]) turns the
    camera to 0.6077500000000001 degrees; in the second (D held, delta
    0.02485816720733179) the rate is -24.44870512500002 degrees a second
    and [camera_yaw + rate * delta_time] is [-2^-53]; [% 360.0] adds 360.0
    to that negative remainder and the sum rounds to 360.0. The result does
    not depend on the wall clock nor on [np.radians], [np.sin] and
    [np.cos]. *)
Theorem C1_yaw_reaches_360_in_binary64
    (f64_radians f64_sin f64_cos : float -> float) (t1 t2 : float) :
  let run := f64_run_camera f64_radians f64_sin f64_cos in
  let s1 := run (firstn 1 (f64_two_frames t1 t2)) f64_initial_camera in
  let s2 := run (f64_two_frames t1 t2) f64_initial_camera in
  map f64_delta_in_clamp (f64_two_frames t1 t2) = [true; true]
  /\ f64_yaw s1 = 0.6077500000000001%float
  /\ fst (f64_rotation_velocity s2) = (-24.44870512500002)%float
  /\ (f64_yaw s1 + fst (f64_rotation_velocity s2) * 0.02485816720733179
      = -0x1p-53)%float
  /\ f64_yaw s2 = 360%float
  /\ PrimFloat.ltb (f64_yaw s2) 360 = false
  /\ f64_pitch s2 = 0%float
  /\ f64_distance s2 = 8%float.
Proof.
  cbv zeta. repeat split; vm_compute; reflexivity.
Qed.

(** ** Orbital camera: evaluation *)

Global Instance Qgt_bool_proper : Proper (Qeq ==> Qeq ==> eq) Qgt_bool.
Proof. intros x x' Hx y y' Hy. unfold Qgt_bool. rewrite Hx, Hy. reflexivity. Qed.

Global Instance np_clip_proper : Proper (Qeq ==> Qeq ==> Qeq ==> Qeq) np_clip.
Proof.
  intros x x' Hx lo lo' Hlo hi hi' Hhi. unfold np_clip.
  rewrite Hx, Hlo, Hhi. reflexivity.
Qed.

Global Instance py_mod_proper : Proper (Qeq ==> Qeq ==> Qeq) py_mod.
Proof.
  intros x x' Hx m m' Hm. unfold py_mod.
  assert (Hf : Qfloor (x / m) = Qfloor (x' / m'))
    by (apply Qfloor_comp; rewrite Hx, Hm; reflexivity).
  rewrite Hf, Hx, Hm. reflexivity.
Qed.

Global Instance smooth_proper : Proper (Qeq ==> Qeq ==> Qeq ==> Qeq) smooth.
Proof.
  intros c c' Hc v v' Hv t t' Ht. unfold smooth.
  rewrite Hc, Hv, Ht. reflexivity.
Qed.

Global Instance motion_equiv_equivalence : Equivalence motion_equiv.
Proof.
  split.
  - intros s. unfold motion_equiv. repeat split; reflexivity.
  - intros s1 s2 H. unfold motion_equiv in *.
    destruct H as (H1 & H2 & H3 & H4 & H5 & H6 & H7).
    repeat split; symmetry; assumption.
  - intros s1 s2 s3 H H'. unfold motion_equiv in *.
    destruct H as (H1 & H2 & H3 & H4 & H5 & H6 & H7).
    destruct H' as (K1 & K2 & K3 & K4 & K5 & K6 & K7).
    repeat split; etransitivity; eassumption.
Qed.

Lemma reduce_camera_equiv (s : camera_state) : motion_equiv (reduce_camera s) s.
Proof. unfold motion_equiv, reduce_camera. cbn. repeat split; apply Qred_correct. Qed.

(** With a key held, the smoothing factor does not depend on the wall
    clock. *)
Lemma update_dynamic_smoothing_held (i1 i2 : frame_input)
    (s1 s2 : camera_state) :
  same_input i1 i2 -> keys_pressed i1 <> ∅ ->
  current_smoothing s1 == current_smoothing s2 ->
  current_smoothing (update_dynamic_smoothing i1 s1)
  == current_smoothing (update_dynamic_smoothing i2 s2).
Proof.
  intros (Hk & Ht & _ & Hc) Hne Hcs. unfold update_dynamic_smoothing.
  rewrite <- Hk, <- Ht, <- Hc.
  destruct (negb (smoothing_boost_on_input (frame_config i1)));
    [reflexivity |].
  rewrite (bool_decide_eq_true_2 _ Hne). cbn [with_smoothing current_smoothing].
  rewrite Hcs. reflexivity.
Qed.

Section CameraEvaluation.

Variables np_radians np_sin np_cos : Q -> Q.

Let step := update_camera_position np_radians np_sin np_cos.

Lemma update_camera_position_equiv (i1 i2 : frame_input)
    (s1 s2 : camera_state) :
  same_input i1 i2 -> keys_pressed i1 <> ∅ ->
  motion_equiv s1 s2 -> motion_equiv (step i1 s1) (step i2 s2).
Proof.
  intros Hin Hne (Hy & Hp & Hd & Hv0 & Hv1 & Hz & Hcs).
  pose proof (update_dynamic_smoothing_held i1 i2 s1 s2 Hin Hne Hcs) as Hcs'.
  destruct (update_dynamic_smoothing_pose i1 s1) as (Ey1 & Ep1 & Ed1 & Ev1 & Ez1).
  destruct (update_dynamic_smoothing_pose i2 s2) as (Ey2 & Ep2 & Ed2 & Ev2 & Ez2).
  destruct Hin as (Hk & Ht & Hdt & Hc).
  assert (Htr : target_rotation_velocity i1 = target_rotation_velocity i2).
  { unfold target_rotation_velocity, effective_orbit_speed,
      effective_pitch_speed, turbo_scaled. rewrite Hk, Ht, Hc. reflexivity. }
  assert (Htz : target_zoom_velocity i1 = target_zoom_velocity i2).
  { unfold target_zoom_velocity, effective_zoom_speed, turbo_scaled.
    rewrite Hk, Ht, Hc. reflexivity. }
  unfold motion_equiv, step, update_camera_position, update_orbital_camera.
  cbn [camera_yaw camera_pitch camera_distance rotation_velocity
       zoom_velocity current_smoothing fst snd].
  rewrite Ey1, Ep1, Ed1, Ev1, Ez1, Ey2, Ep2, Ed2, Ev2, Ez2.
  rewrite <- Htr, <- Htz, <- Hdt.
  destruct (Qgt_bool (frame_delta i1) 0);
    repeat split;
    rewrite ?Hcs', ?Hy, ?Hp, ?Hd, ?Hv0, ?Hv1, ?Hz; reflexivity.
Qed.

(** The frames of a run that holds the same non-empty input throughout. *)
Lemma run_camera_reduced_equiv (fs1 fs2 : list frame_input)
    (s1 s2 : camera_state) :
  Forall2 (fun i1 i2 => same_input i1 i2 /\ keys_pressed i1 <> ∅) fs1 fs2 ->
  motion_equiv s1 s2 ->
  motion_equiv (run_camera np_radians np_sin np_cos fs1 s1)
    (run_camera_reduced np_radians np_sin np_cos fs2 s2).
Proof.
  intros HF. revert s1 s2.
  induction HF as [| i1 i2 fs1 fs2 [Hin Hne] _ IH]; intros s1 s2 Hs;
    [exact Hs |].
  cbn. apply IH.
  transitivity (step i2 s2).
  - apply update_camera_position_equiv; assumption.
  - symmetry. apply reduce_camera_equiv.
Qed.

End CameraEvaluation.

(** ** Orbital camera: holding an orbit key for a second *)


Section HoldOrbitKey.

Variables np_radians np_sin np_cos : Q -> Q.

Let step := update_camera_position np_radians np_sin np_cos.
Let run := run_camera np_radians np_sin np_cos.

(** One frame with only A or only D held, in the default tuning and
    without turbo: the smoothing factor moves towards
    [input_smoothing_factor], the yaw rate is filtered towards 130 degrees a
    second in the direction of the key, and the yaw follows. *)
Lemma hold_orbit_frame (left : bool) (now : Q) (s : camera_state) :
  let s' := step (plain_frame {[ orbit_key left ]} (1 # 60) now) s in
  current_smoothing s'
  == current_smoothing s * (85 # 100) + (225 # 10000)
  /\ fst (rotation_velocity s')
     == smooth (current_smoothing s') (fst (rotation_velocity s))
          (if left then 130 else - (130))
  /\ camera_yaw s'
     == py_mod (camera_yaw s + fst (rotation_velocity s') * (1 # 60)) 360.
Proof.
  destruct s as [yaw pitch dist [v0 v1] zv cs lit ex ey ez].
  unfold step, update_camera_position, update_dynamic_smoothing,
    target_rotation_velocity, effective_orbit_speed, turbo_scaled,
    update_orbital_camera, with_smoothing, plain_frame.
  cbn [camera_yaw camera_pitch camera_distance rotation_velocity
       zoom_velocity current_smoothing last_input_time fst snd
       keys_pressed turbo_active frame_delta frame_time frame_config
       smoothing_boost_on_input camera_speed orbit_speed
       strafe_speed_multiplier default_config negb].
  change (Qgt_bool 7 fast_smoothing_threshold) with false.
  change (Qgt_bool (1 # 60) 0) with true.
  cbn [orb]. cbv zeta.
  assert (Hne : K_d <> K_a) by discriminate.
  destruct left; cbn [orbit_key];
    repeat case_bool_decide;
    try (exfalso; set_solver);
    (split; [| split];
     [ unfold input_smoothing_factor; ring
     | apply smooth_proper; reflexivity
     | reflexivity ]).
Qed.

Lemma orbit_inv_first (left : bool) (now : Q) :
  orbit_inv left 1
    (step (plain_frame {[ orbit_key left ]} (1 # 60) now) initial_camera).
Proof.
  unfold orbit_inv.
  destruct left; vm_compute; repeat split; discriminate.
Qed.

Lemma orbit_inv_step (left : bool) (k : nat) (now : Q) (s : camera_state) :
  (k < 60)%nat -> orbit_inv left k s ->
  orbit_inv left (S k)
    (step (plain_frame {[ orbit_key left ]} (1 # 60) now) s).
Proof.
  intros Hk ((Hc1 & Hc2) & He & Hlag & Hsum & Hy).
  destruct (hold_orbit_frame left now s) as (Ecs & Ev & Ey).
  unfold orbit_inv. cbv zeta in *.
  set (s' := step (plain_frame {[ orbit_key left ]} (1 # 60) now) s) in *.
  set (e := 130 - orbit_rate left s) in *.
  set (e' := 130 - orbit_rate left s').
  assert (Hk' : inject_Z (Z.of_nat (S k)) == inject_Z (Z.of_nat k) + 1).
  { rewrite Nat2Z.inj_succ. unfold Z.succ. rewrite inject_Z_plus.
    reflexivity. }
  assert (Hkq : inject_Z (Z.of_nat k) + 1 <= 60).
  { rewrite <- Hk'. change 60 with (inject_Z 60). rewrite <- Zle_Qle. lia. }
  assert (Hk0 : 0 <= inject_Z (Z.of_nat k)).
  { change 0 with (inject_Z 0). rewrite <- Zle_Qle. lia. }
  assert (Hcs1 : (15 # 100) <= current_smoothing s') by lra.
  assert (Hcs2 : current_smoothing s' <= (72 # 100)) by lra.
  assert (Ee : e' == current_smoothing s' * e).
  { unfold e', e, orbit_rate.
    destruct left; rewrite Ev; unfold smooth; ring. }
  assert (He1 : 0 < e').
  { rewrite Ee. apply Qmult_lt_0_compat; lra. }
  assert (He2 : e' <= (72 # 100) * e).
  { rewrite Ee. apply Qmult_le_compat_r; lra. }
  assert (Ey' : camera_yaw s'
                == camera_yaw s + fst (rotation_velocity s') * (1 # 60)).
  { rewrite Ey. apply py_mod_small;
      unfold e', e, orbit_rate, turned_angle in *; destruct left; lra. }
  rewrite Hk'.
  unfold e', e, orbit_rate, turned_angle in *.
  destruct left; repeat split; lra.
Qed.

Lemma run_camera_cons (i : frame_input) (frames : list frame_input)
    (s : camera_state) :
  run (i :: frames) s = run frames (step i s).
Proof. reflexivity. Qed.

Lemma orbit_inv_run (left : bool) (nows : list Q) (k : nat)
    (s : camera_state) :
  (k + length nows <= 60)%nat -> orbit_inv left k s ->
  orbit_inv left (k + length nows) (run (hold_key (orbit_key left) nows) s).
Proof.
  revert k s. induction nows as [| now nows IH]; intros k s Hk Hs.
  - cbn. rewrite Nat.add_0_r. exact Hs.
  - cbn [length hold_key map] in *. unfold run. cbn [run_camera fold_left].
    replace (k + S (length nows))%nat with (S k + length nows)%nat by lia.
    apply IH; [lia |]. apply orbit_inv_step; [lia | exact Hs].
Qed.

(** After the sixty frames the angle turned lies strictly between 124 and
    130 degrees. *)
Lemma hold_orbit_second (left : bool) (nows : list Q) :
  length nows = 60%nat ->
  let s := run (hold_key (orbit_key left) nows) initial_camera in
  124 < turned_angle left s /\ turned_angle left s < 130.
Proof.
  intros Hlen.
  destruct nows as [| now nows]; [discriminate |].
  cbn [length] in Hlen.
  pose proof (orbit_inv_run left nows 1 _ ltac:(lia)
                (orbit_inv_first left now)) as H.
  replace (1 + length nows)%nat with 60%nat in H by lia.
  cbv zeta. cbn [hold_key map]. rewrite run_camera_cons.
  fold (hold_key (orbit_key left) nows).
  set (s := run (hold_key (orbit_key left) nows) _) in *.
  destruct H as (_ & He & Hlag & Hsum & _). cbv zeta in *.
  change (inject_Z (Z.of_nat 60)) with 60 in *.
  split; lra.
Qed.

End HoldOrbitKey.

(** C7, as stated, fails. Sixty frames of 1/60 s from the default camera in
    the default tuning (orbit speed 100), no turbo: holding D, the
    orbit-right key, leaves the yaw above 230 degrees, and holding A, the
    other orbit key, leaves it above 124 degrees; neither lies strictly
    between 0 and 100. *)
Lemma C7_counterexample_yaw_not_below_100 :
  let final key :=
    camera_yaw
      (run_camera no_trig no_trig no_trig
         (hold_key key (frame_times (1 # 60) 60)) initial_camera) in
  orbit_speed default_config = 100
  /\ ~ (0 < final K_d /\ final K_d < 100)
  /\ ~ (0 < final K_a /\ final K_a < 100).
Proof.
  cbv zeta. split; [reflexivity |].
  pose proof (hold_orbit_second no_trig no_trig no_trig false
                (frame_times (1 # 60) 60) eq_refl) as [_ Hd].
  pose proof (hold_orbit_second no_trig no_trig no_trig true
                (frame_times (1 # 60) 60) eq_refl) as [Ha _].
  cbv beta iota zeta delta [turned_angle orbit_key] in *.
  split; intros [H0 H100]; lra.
Qed.

(** C7, amended. From yaw 0, pitch 0, distance 8, holding only D (orbit
    right) for sixty frames of 1/60 s, in the default tuning and without
    turbo, whatever the wall clock: the effective orbit speed is
    [orbit_speed * strafe_speed_multiplier = 100 * 1.3 = 130] degrees a
    second, the yaw decreases and wraps, and the angle turned,
    [360 - yaw], is strictly between 124 and 130 degrees (it approaches 130
    without reaching it); so the final yaw is strictly between 230 and 236
    degrees. *)
Theorem C7_orbit_right_for_a_second (np_radians np_sin np_cos : Q -> Q)
    (nows : list Q) :
  length nows = 60%nat ->
  let s :=
    run_camera np_radians np_sin np_cos (hold_key K_d nows) initial_camera in
  effective_orbit_speed (plain_frame {[ K_d ]} (1 # 60) 0) == 130
  /\ (124 < 360 - camera_yaw s /\ 360 - camera_yaw s < 130)
  /\ (230 < camera_yaw s /\ camera_yaw s < 236).
Proof.
  intros Hlen s.
  pose proof (hold_orbit_second np_radians np_sin np_cos false nows Hlen)
    as [H1 H2].
  subst s. cbv beta iota zeta delta [turned_angle orbit_key] in *.
  split; [reflexivity |]. split; split; lra.
Qed.

Lemma C7_orbit_right_for_a_second_witness :
  length (frame_times (1 # 60) 60) = 60%nat
  /\ 230 < camera_yaw
             (run_camera no_trig no_trig no_trig
                (hold_key K_d (frame_times (1 # 60) 60)) initial_camera)
  /\ camera_yaw
       (run_camera no_trig no_trig no_trig
          (hold_key K_d (frame_times (1 # 60) 60)) initial_camera) < 236.
Proof.
  split; [reflexivity |].
  exact (proj2 (proj2 (C7_orbit_right_for_a_second no_trig no_trig no_trig
                         (frame_times (1 # 60) 60) eq_refl))).
Defined.

(** ** Orbital camera: the pitch limit *)

Section PitchLimit.

Variables np_radians np_sin np_cos : Q -> Q.

Let step := update_camera_position np_radians np_sin np_cos.

(** What a frame does to the pitch and to its rate. *)
Lemma update_camera_position_pitch (i : frame_input) (s : camera_state) :
  let s' := step i s in
  snd (rotation_velocity s')
  = smooth (current_smoothing s') (snd (rotation_velocity s))
      (snd (target_rotation_velocity i))
  /\ unclipped_pitch i s
     = camera_pitch s + snd (rotation_velocity s') * frame_delta i
  /\ camera_pitch s'
     = if Qgt_bool (frame_delta i) 0
       then np_clip (unclipped_pitch i s) (- pitch_limit) pitch_limit
       else camera_pitch s.
Proof.
  destruct (update_dynamic_smoothing_pose i s) as (_ & Ep & _ & Ev & _).
  unfold step, update_camera_position, update_orbital_camera,
    unclipped_pitch.
  cbn [camera_pitch rotation_velocity current_smoothing fst snd].
  rewrite Ep, Ev. repeat split; reflexivity.
Qed.

End PitchLimit.

(** The concrete run: Q held with turbo. After ten frames the pitch sits
    on the limit; the reduced evaluation gives the numbers. *)
Lemma pitched_up_equiv (n : nat) :
  motion_equiv (pitched_up n)
    (run_camera_reduced no_trig no_trig no_trig
       (map pitch_up_frame (frame_times (33 # 1000) n)) initial_camera).
Proof.
  unfold pitched_up. apply run_camera_reduced_equiv; [| reflexivity].
  induction (frame_times (33 # 1000) n) as [| now nows IH]; cbn.
  - constructor.
  - constructor; [| exact IH]. split.
    + repeat split.
    + cbn. set_solver.
Qed.

Lemma pitched_up_succ (n : nat) :
  pitched_up (S n)
  = update_camera_position no_trig no_trig no_trig
      (pitch_up_frame (inject_Z (Z.of_nat (S n)) * (33 # 1000)))
      (pitched_up n).
Proof.
  unfold pitched_up, frame_times, run_camera.
  rewrite seq_S, !map_app, fold_left_app. reflexivity.
Qed.

(** The numbers of the run, from its evaluation on reduced fractions. *)
Lemma pitched_up_10 : camera_pitch (pitched_up 10) == 89.
Proof.
  destruct (pitched_up_equiv 10) as (_ & P & _).
  apply (Qeq_trans _ _ _ P). vm_compute. reflexivity.
Qed.

Lemma pitched_up_11 :
  camera_pitch (pitched_up 11) == 89
  /\ 300 < snd (rotation_velocity (pitched_up 11)).
Proof.
  destruct (pitched_up_equiv 11) as (_ & P & _ & _ & R & _). split.
  - apply (Qeq_trans _ _ _ P). vm_compute. reflexivity.
  - rewrite R. vm_compute. reflexivity.
Qed.

Lemma pitched_up_12 : 300 < snd (rotation_velocity (pitched_up 12)).
Proof.
  destruct (pitched_up_equiv 12) as (_ & _ & _ & _ & R & _).
  rewrite R. vm_compute. reflexivity.
Qed.

(** C8, as stated, fails. Holding Q with turbo from the default camera,
    the pitch sits on the limit after ten frames of 0.033 s. The eleventh
    frame would integrate across the limit: the pitch is clipped to 89, but
    the pitch rate it stores is above 300 degrees a second, neither zeroed
    nor reduced, and the twelfth frame integrates across the limit again. *)
Lemma C8_counterexample_rate_persists :
  let frame11 := pitch_up_frame (11 * (33 # 1000)) in
  let frame12 := pitch_up_frame (12 * (33 # 1000)) in
  let s10 := pitched_up 10 in
  let s11 := update_camera_position no_trig no_trig no_trig frame11 s10 in
  camera_pitch s10 == 89
  /\ 89 < unclipped_pitch frame11 s10
  /\ camera_pitch s11 == 89
  /\ 300 < snd (rotation_velocity s11)
  /\ 89 < unclipped_pitch frame12 s11.
Proof.
  cbv zeta.
  pose proof (pitched_up_succ 10) as E11.
  pose proof (pitched_up_succ 11) as E12.
  change (inject_Z (Z.of_nat 11)) with 11 in E11.
  change (inject_Z (Z.of_nat 12)) with 12 in E12.
  destruct (update_camera_position_pitch no_trig no_trig no_trig
              (pitch_up_frame (11 * (33 # 1000))) (pitched_up 10))
    as (_ & Eu11 & _).
  destruct (update_camera_position_pitch no_trig no_trig no_trig
              (pitch_up_frame (12 * (33 # 1000))) (pitched_up 11))
    as (_ & Eu12 & _).
  cbv zeta in Eu11, Eu12.
  rewrite <- E11. rewrite <- E11 in Eu11. rewrite <- E12 in Eu12.
  rewrite Eu11, Eu12. cbn [frame_delta pitch_up_frame].
  pose proof pitched_up_10 as P10.
  destruct pitched_up_11 as [P11 R11].
  pose proof pitched_up_12 as R12.
  split; [exact P10 |]. split; [lra |]. split; [exact P11 |].
  split; [exact R11 | lra].
Qed.

(** C8, amended. An update with a positive delta clips the integrated
    pitch to [-89, 89] and does nothing more at the limit: the pitch rate it
    stores is the filtered rate [v * s + target * (1 - s)], the same whether
    or not the clip was active. So when the integration crosses the limit
    the value is set to the limit while the rate persists. *)
Theorem C8_pitch_clipped_rate_kept (np_radians np_sin np_cos : Q -> Q)
    (i : frame_input) (s : camera_state) :
  0 < frame_delta i ->
  let s' := update_camera_position np_radians np_sin np_cos i s in
  camera_pitch s' == np_clip (unclipped_pitch i s) (- (89)) 89
  /\ (89 <= unclipped_pitch i s -> camera_pitch s' == 89)
  /\ (unclipped_pitch i s <= - (89) -> camera_pitch s' == - (89))
  /\ unclipped_pitch i s
     == camera_pitch s + snd (rotation_velocity s') * frame_delta i
  /\ snd (rotation_velocity s')
     == smooth (current_smoothing s') (snd (rotation_velocity s))
          (snd (target_rotation_velocity i)).
Proof.
  intros Hdt s'.
  destruct (update_camera_position_pitch np_radians np_sin np_cos i s)
    as (Ev & Eu & Ep).
  cbv zeta in Ev, Eu, Ep. fold s' in Ev, Eu, Ep.
  apply Qgt_bool_true in Hdt. rewrite Hdt in Ep.
  assert (Hclip : camera_pitch s'
                  == np_clip (unclipped_pitch i s) (- (89)) 89)
    by (rewrite Ep; reflexivity).
  split; [exact Hclip |]. split; [| split; [| split]].
  - intros H. rewrite Hclip. apply np_clip_above; lra.
  - intros H. rewrite Hclip. apply np_clip_below; lra.
  - rewrite Eu. reflexivity.
  - rewrite Ev. reflexivity.
Qed.

Lemma C8_pitch_clipped_rate_kept_witness :
  0 < frame_delta (pitch_up_frame (11 * (33 # 1000)))
  /\ camera_pitch
       (update_camera_position no_trig no_trig no_trig
          (pitch_up_frame (11 * (33 # 1000))) (pitched_up 10))
     == np_clip
          (unclipped_pitch (pitch_up_frame (11 * (33 # 1000)))
             (pitched_up 10))
          (- (89)) 89.
Proof.
  split; [reflexivity |].
  exact (proj1 (C8_pitch_clipped_rate_kept no_trig no_trig no_trig
                  (pitch_up_frame (11 * (33 # 1000))) (pitched_up 10)
                  eq_refl)).
Defined.

(** ** Animation engine *)

Lemma update_model_animation_total_time (np_sin : Q -> Q) (dt : Q)
    (a : animation_state) :
  total_animation_time (update_model_animation np_sin dt a)
  = total_animation_time a.
Proof.
  unfold update_model_animation.
  destruct (negb (model_animation_paused a) && Qgt_bool dt 0); reflexivity.
Qed.

Lemma update_all_animations_model (dt : Q) (a : animation_state) :
  total_animation_time (update_all_animations dt a) = total_animation_time a
  /\ model_rotation_angle (update_all_animations dt a)
     = model_rotation_angle a
  /\ model_animation_paused (update_all_animations dt a)
     = model_animation_paused a.
Proof.
  unfold update_all_animations.
  destruct (negb (animation_paused a) && Qgt_bool dt 0);
    [destruct auto_rotation_enabled |]; repeat split; reflexivity.
Qed.

(** What an update does to the global time, whatever the flags. *)
Lemma update_all_animation_systems_total_time (np_sin : Q -> Q) (dt : Q)
    (a : animation_state) :
  total_animation_time (update_all_animation_systems np_sin dt a)
  = if Qgt_bool dt 0
    then total_animation_time a + dt * animation_speed_multiplier a
    else total_animation_time a.
Proof.
  unfold update_all_animation_systems.
  destruct (Qgt_bool dt 0); [| reflexivity].
  destruct (update_all_animations_model dt
              (update_model_animation np_sin dt
                 (advance_total_time (dt * animation_speed_multiplier a) a)))
    as (E & _).
  rewrite E, update_model_animation_total_time. reflexivity.
Qed.

(** C5, as stated, fails: with every pause flag set, a frame of 1/60 s
    still advances [total_animation_time], from 0 to 1/60. *)
Lemma C5_counterexample_time_advances_while_paused :
  animation_paused all_paused = true
  /\ model_animation_paused all_paused = true
  /\ total_animation_time all_paused == 0
  /\ total_animation_time
       (update_all_animation_systems no_trig (1 # 60) all_paused)
     == 1 # 60.
Proof. repeat split. Qed.

(** C5, amended. On every animation update step, [total_animation_time]
    is incremented by [delta_time * animation_speed_multiplier] if and only
    if [delta_time] is positive, whatever the pause flags; with a delta that
    is not positive the update leaves it unchanged. The pause flag
    [animation_paused] only holds the legacy auto-rotation still. *)
Theorem C5_total_time_advances_with_positive_delta (np_sin : Q -> Q)
    (dt : Q) (a : animation_state) :
  let a' := update_all_animation_systems np_sin dt a in
  ((0 < dt
    /\ total_animation_time a'
       = total_animation_time a + dt * animation_speed_multiplier a)
   \/ (dt <= 0 /\ total_animation_time a' = total_animation_time a))
  /\ (animation_paused a = false
      \/ current_auto_rotation a' = current_auto_rotation a).
Proof.
  cbv zeta. rewrite update_all_animation_systems_total_time. split.
  - destruct (Qgt_bool dt 0) eqn:E.
    + left. apply Qgt_bool_true in E. split; [exact E | reflexivity].
    + right. apply Qgt_bool_false in E. split; [exact E | reflexivity].
  - destruct (animation_paused a) eqn:Ep; [right | left; reflexivity].
    unfold update_all_animation_systems.
    destruct (Qgt_bool dt 0); [| reflexivity].
    unfold update_all_animations.
    assert (Hp : animation_paused
                   (update_model_animation np_sin dt
                      (advance_total_time
                         (dt * animation_speed_multiplier a) a)) = true).
    { unfold update_model_animation.
      destruct (negb _ && _); cbn; exact Ep. }
    rewrite Hp. cbn [negb andb].
    unfold update_model_animation.
    destruct (negb _ && _); reflexivity.
Qed.

(** The preset numbers of the table are 1 to 5. *)
Lemma animation_presets_lookup (n : Z) :
  animation_presets !! n
  = if decide (n = 1%Z) then Some showcase
    else if decide (n = 2%Z) then Some dynamic
    else if decide (n = 3%Z) then Some cinematic
    else if decide (n = 4%Z) then Some hyperdrive
    else if decide (n = 5%Z) then Some zen
    else None.
Proof.
  unfold animation_presets.
  repeat (rewrite lookup_insert; case_decide; subst;
          [ repeat (case_decide; [lia |]); try reflexivity;
            repeat case_decide; try lia; reflexivity | ]).
  rewrite lookup_empty. repeat (case_decide; [lia |]). reflexivity.
Qed.

(** C6. For a preset number of the table, [apply_animation_preset] sets
    the model rotation speed and pause flag, the three light-channel flags,
    the orbit and bobbing speeds and the global speed multiplier from the
    preset alone (a key the preset lacks gives its fixed default), and
    leaves [model_rotation_angle], [total_animation_time],
    [light_orbit_angle] and [light_bobbing_offset] as they were. In
    particular Hyperdrive (4) followed by Zen (5) leaves the rotation angle
    and the total time as they were before the two calls. *)
Theorem C6_preset_replaces_rates_keeps_phases (n : Z) (p : preset)
    (ticks ticks4 ticks5 : Z) (a : animation_state) :
  animation_presets !! n = Some p ->
  let a' := snd (apply_animation_preset n ticks a) in
  let b := snd (apply_animation_preset 5 ticks5
                  (snd (apply_animation_preset 4 ticks4 a))) in
  (model_rotation_speed a' = default 30 (model_speed p)
   /\ model_animation_paused a' = default false (model_paused p)
   /\ light_orbit_enabled a' = default false (light_orbit p)
   /\ light_orbit_speed a' = default 45 (preset_light_orbit_speed p)
   /\ light_bobbing_enabled a' = default false (light_bobbing p)
   /\ light_bobbing_speed a' = default 2 (preset_light_bobbing_speed p)
   /\ light_path_enabled a' = default false (light_path p)
   /\ animation_speed_multiplier a' = default 1 (global_speed p)
   /\ current_animation_preset a' = n)
  /\ (model_rotation_angle a' = model_rotation_angle a
      /\ total_animation_time a' = total_animation_time a
      /\ light_orbit_angle a' = light_orbit_angle a
      /\ light_bobbing_offset a' = light_bobbing_offset a)
  /\ (model_rotation_angle b = model_rotation_angle a
      /\ total_animation_time b = total_animation_time a
      /\ model_rotation_speed b = 10
      /\ animation_speed_multiplier b = 3 # 10).
Proof.
  intros Hp. cbv zeta. unfold apply_animation_preset.
  rewrite Hp, !animation_presets_lookup. cbn.
  repeat split.
Qed.

Lemma C6_preset_replaces_rates_keeps_phases_witness :
  animation_presets !! 4%Z = Some hyperdrive
  /\ light_bobbing_speed
       (snd (apply_animation_preset 4 0 paused_at_quarter_turn)) = 2
  /\ model_rotation_angle
       (snd (apply_animation_preset 4 0 paused_at_quarter_turn)) = 90.
Proof.
  split; [reflexivity |].
  pose proof (C6_preset_replaces_rates_keeps_phases 4 hyperdrive 0 0 0
                paused_at_quarter_turn eq_refl) as H.
  cbv zeta in H.
  destruct H as ((_ & _ & _ & _ & _ & Hb & _) & (Ha & _) & _).
  split; [exact Hb | exact Ha].
Defined.

(** C9, as stated, fails: for the number 6, which the table lacks,
    [apply_animation_preset] hands back [None], not a boolean, and [None] is
    also what it hands back when it applies preset 4; the returned value
    tells the two apart no more than it signals a rejection. *)
Lemma C9_counterexample_no_boolean_signal :
  animation_presets !! 6%Z = None
  /\ fst (apply_animation_preset 6 0 initial_animation) = PyNone
  /\ (forall flag : bool,
        fst (apply_animation_preset 6 0 initial_animation) <> PyBool flag)
  /\ fst (apply_animation_preset 6 0 initial_animation)
     = fst (apply_animation_preset 4 0 initial_animation).
Proof.
  split; [reflexivity |]. split; [reflexivity |].
  split; [intros flag; discriminate | reflexivity].
Qed.

(** C9, amended. For every preset number the table lacks,
    [apply_animation_preset] leaves the whole animation state as it was
    (status message included) and returns [None], as every call of it
    does. *)
Theorem C9_unknown_preset_is_a_no_op (n ticks : Z) (a : animation_state) :
  animation_presets !! n = None ->
  snd (apply_animation_preset n ticks a) = a
  /\ fst (apply_animation_preset n ticks a) = PyNone
  /\ (forall (m ticks' : Z) (a' : animation_state),
        fst (apply_animation_preset m ticks' a') = PyNone).
Proof.
  intros Hn. split; [| split].
  - unfold apply_animation_preset. rewrite Hn. reflexivity.
  - unfold apply_animation_preset. rewrite Hn. reflexivity.
  - intros m ticks' a'. unfold apply_animation_preset.
    destruct (animation_presets !! m); reflexivity.
Qed.

Lemma C9_unknown_preset_is_a_no_op_witness :
  animation_presets !! 6%Z = None
  /\ snd (apply_animation_preset 6 0 paused_at_quarter_turn)
     = paused_at_quarter_turn.
Proof.
  split; [reflexivity |].
  exact (proj1 (C9_unknown_preset_is_a_no_op 6 0 paused_at_quarter_turn
                  eq_refl)).
Defined.

(** C10. While the model animation is paused, [get_total_model_rotation]
    returns 0 whatever angle is stored and
    [apply_model_animation_transforms] issues no rotation; the updates leave
    the stored angle alone; and after the toggle that resumes the animation
    both report the stored angle again. *)
Theorem C10_paused_rotation_reads_zero (np_sin : Q -> Q) (dt : Q)
    (ticks : Z) (a : animation_state) :
  model_animation_paused a = true ->
  get_total_model_rotation a = 0
  /\ apply_model_animation_transforms a = []
  /\ model_rotation_angle (update_model_animation np_sin dt a)
     = model_rotation_angle a
  /\ model_rotation_angle (update_all_animation_systems np_sin dt a)
     = model_rotation_angle a
  /\ model_rotation_angle (toggle_model_animation ticks a)
     = model_rotation_angle a
  /\ get_total_model_rotation (toggle_model_animation ticks a)
     = model_rotation_angle a
  /\ apply_model_animation_transforms (toggle_model_animation ticks a)
     = [GlRotatef (model_rotation_angle a) 0 1 0].
Proof.
  intros Hp.
  unfold get_total_model_rotation, apply_model_animation_transforms,
    update_all_animation_systems, update_model_animation,
    toggle_model_animation, set_status_message.
  cbn [model_animation_paused model_rotation_angle advance_total_time].
  rewrite Hp. cbn [negb andb model_rotation_axis].
  repeat split.
  destruct (Qgt_bool dt 0); [| reflexivity].
  destruct (update_all_animations_model dt
              (advance_total_time (dt * animation_speed_multiplier a) a))
    as (_ & E & _).
  rewrite E. reflexivity.
Qed.

Lemma C10_paused_rotation_reads_zero_witness :
  model_animation_paused paused_at_quarter_turn = true
  /\ model_rotation_angle paused_at_quarter_turn = 90
  /\ get_total_model_rotation paused_at_quarter_turn = 0
  /\ get_total_model_rotation
       (toggle_model_animation 0 paused_at_quarter_turn) = 90.
Proof.
  split; [reflexivity |]. split; [reflexivity |].
  pose proof (C10_paused_rotation_reads_zero no_trig (1 # 60) 0
                paused_at_quarter_turn eq_refl)
    as (H0 & _ & _ & _ & _ & Hr & _).
  split; [exact H0 | exact Hr].
Defined.

(** The other direction of the toggle: pausing a running model makes the
    reported rotation snap to 0 while the stored angle stays. *)
Lemma pause_snaps_reported_rotation (ticks : Z) (a : animation_state) :
  model_animation_paused a = false ->
  get_total_model_rotation a = model_rotation_angle a
  /\ get_total_model_rotation (toggle_model_animation ticks a) = 0
  /\ model_rotation_angle (toggle_model_animation ticks a)
     = model_rotation_angle a.
Proof.
  intros Hp.
  unfold get_total_model_rotation, toggle_model_animation,
    set_status_message.
  cbn [model_animation_paused model_rotation_angle].
  rewrite Hp. repeat split.
Qed.

(** ** Planar shadow projection *)

Section ShadowFixedPoint.

Variable np_sqrt : Q -> Q.
Hypothesis np_sqrt_1 : np_sqrt 1 == 1.

(** With the light at (5,5,5,1) over the plane y = 0, every point of the
    plane is mapped to itself scaled by w = 5. *)
Lemma ground_point_image (x z : Q) :
  let '(x', y', z', w') :=
    mat_apply (create_shadow_matrix np_sqrt (5, 5, 5, 1) (0, 0, 0) (0, 1, 0))
      (x, 0, z, 1) in
  x' == 5 * x /\ y' == 0 /\ z' == 5 * z /\ w' == 5.
Proof.
  unfold create_shadow_matrix, np_linalg_norm, np_dot, mat_apply, row_dot.
  change (0 * 0 + 1 * 1 + 0 * 0) with 1.
  repeat split; rewrite np_sqrt_1; field.
Qed.

End ShadowFixedPoint.

(** C4. For the shadow matrix of the light (5,5,5,1), the plane point
    (0,0,0) and the normal (0,1,0), the image of the homogeneous point
    (0,0,0,1) has w = 5 and, after the perspective divide by w, is the point
    (0,0,0) again. The square root of the norm enters only through
    [sqrt 1 = 1]. *)
Theorem C4_plane_point_is_fixed (np_sqrt : Q -> Q) :
  np_sqrt 1 == 1 ->
  let image :=
    mat_apply (create_shadow_matrix np_sqrt (5, 5, 5, 1) (0, 0, 0) (0, 1, 0))
      (0, 0, 0, 1) in
  snd image == 5
  /\ vec3_eq (perspective_divide image) (0, 0, 0).
Proof.
  intros H1. cbv zeta.
  pose proof (ground_point_image np_sqrt H1 0 0) as H.
  destruct (mat_apply _ _) as [[[x' y'] z'] w'].
  destruct H as (Hx & Hy & Hz & Hw).
  cbn [snd perspective_divide vec3_eq].
  split; [exact Hw |].
  rewrite Hx, Hy, Hz, Hw. repeat split; reflexivity.
Qed.

Lemma C4_plane_point_is_fixed_witness :
  Qsqrt_floor 1 == 1
  /\ vec3_eq
       (perspective_divide
          (mat_apply
             (create_shadow_matrix Qsqrt_floor (5, 5, 5, 1) (0, 0, 0)
                (0, 1, 0))
             (0, 0, 0, 1)))
       (0, 0, 0).
Proof.
  split; [reflexivity |].
  exact (proj2 (C4_plane_point_is_fixed Qsqrt_floor
                  (eq_refl : Qsqrt_floor 1 == 1))).
Defined.

(** * Further properties *)

(** ** Shadow projection *)








(** ** Frame clock *)

Lemma calculate_delta_time_books (t : Q) (c : clock_state) :
  Qeq_bool (last_frame_time c) 0 = true \/ delta_in_range c ->
  let c' := calculate_delta_time t c in
  frame_count c' = (frame_count c + 1)%Z
  /\ last_frame_time c' = t
  /\ delta_time_sum c + (1 # 1000) <= delta_time_sum c'
  /\ delta_time_sum c' <= delta_time_sum c + (33 # 1000).
Proof.
  intros H. pose proof (calculate_delta_time_in_range t c H) as [Hlo Hhi].
  cbv zeta. split; [reflexivity |]. split; [reflexivity |].
  assert (E : delta_time_sum (calculate_delta_time t c)
              = delta_time_sum c + delta_time (calculate_delta_time t c))
    by reflexivity.
  rewrite E. split; lra.
Qed.

Lemma run_clock_books (ts : list Q) (c : clock_state) :
  Qeq_bool (last_frame_time c) 0 = true \/ delta_in_range c ->
  let n := inject_Z (Z.of_nat (length ts)) in
  frame_count (run_clock ts c) = (frame_count c + Z.of_nat (length ts))%Z
  /\ delta_time_sum c + n * (1 # 1000) <= delta_time_sum (run_clock ts c)
  /\ delta_time_sum (run_clock ts c) <= delta_time_sum c + n * (33 # 1000).
Proof.
  revert c. induction ts as [| t ts IH]; intros c H.
  - cbv zeta. cbn [length run_clock fold_left].
    change (inject_Z (Z.of_nat 0)) with 0.
    split; [lia |]. split; lra.
  - pose proof (calculate_delta_time_books t c H) as (Hc & _ & Hlo & Hhi).
    cbv zeta in Hc, Hlo, Hhi.
    destruct (IH (calculate_delta_time t c)) as (Ic & Ilo & Ihi).
    { right. apply calculate_delta_time_in_range. exact H. }
    cbv zeta in *. cbn [run_clock fold_left length] in *.
    fold (run_clock ts (calculate_delta_time t c)) in *.
    assert (En : inject_Z (Z.of_nat (S (length ts)))
                 == inject_Z (Z.of_nat (length ts)) + 1).
    { rewrite Nat2Z.inj_succ. unfold Z.succ. rewrite inject_Z_plus.
      reflexivity. }
    rewrite En. split; [lia |]. split; lra.
Qed.

(** X4. After [n] calls of the frame clock from the state the module is
    loaded with, whatever the wall clock returned, the frame counter is [n]
    and the accumulated delta lies between [n * 0.001] and [n * 0.033]: the
    average reported delta is within the clamp bounds. *)
Theorem frame_clock_bookkeeping (samples : list Q) :
  let c := run_clock samples initial_clock in
  let n := inject_Z (Z.of_nat (length samples)) in
  frame_count c = Z.of_nat (length samples)
  /\ n * (1 # 1000) <= delta_time_sum c
  /\ delta_time_sum c <= n * (33 # 1000).
Proof.
  destruct (run_clock_books samples initial_clock) as (Hc & Hlo & Hhi).
  { left. reflexivity. }
  cbv zeta in *. cbn [frame_count delta_time_sum initial_clock] in *.
  split; [lia |]. split; lra.
Qed.

(** One call whose raw delta is [d], within the clamp bounds. *)
Lemma calculate_delta_time_steady (t d : Q) (c : clock_state) :
  0 < last_frame_time c -> t - last_frame_time c == d ->
  1 # 1000 <= d -> d <= 33 # 1000 ->
  delta_time (calculate_delta_time t c) - d
  == (7 # 10) * (delta_time c - d).
Proof.
  intros Hpos Hraw Hlo Hhi.
  unfold calculate_delta_time. cbn [delta_time].
  assert (Hz : Qeq_bool (last_frame_time c) 0 = false).
  { destruct (Qeq_bool (last_frame_time c) 0) eqn:E; [| reflexivity].
    apply Qeq_bool_iff in E. lra. }
  rewrite Hz. unfold raw_delta.
  assert (Hb : Qgt_bool (t - last_frame_time c) (33 # 1000) = false)
    by (apply Qgt_bool_false; lra).
  assert (Hs : Qlt_bool (t - last_frame_time c) (1 # 1000) = false)
    by (apply Qlt_bool_false; lra).
  rewrite Hb, Hs. lra.
Qed.

(** X5. In exact arithmetic (the rounding of the binary64 operations is
    not modelled), on a steady frame rate the reported delta converges
    geometrically to the true frame time: if the clock has run before (its
    last sample is positive) and the next [n] samples are spaced by [d],
    with [0.001 <= d <= 0.033], then the error of the reported delta is the
    initial error times [0.7 ^ n]. In binary64 each blend
    [delta_time * 0.7 + raw_delta * 0.3] is rounded, so the running code
    follows this up to rounding. *)
Theorem frame_clock_converges (d : Q) (n : nat) (c : clock_state) :
  0 < last_frame_time c -> 1 # 1000 <= d -> d <= 33 # 1000 ->
  delta_time (run_clock (steady_samples (last_frame_time c) d n) c) - d
  == (7 # 10) ^ Z.of_nat n * (delta_time c - d).
Proof.
  intros Hpos Hlo Hhi. revert c Hpos.
  induction n as [| n IH]; intros c Hpos.
  - cbn [steady_samples run_clock fold_left].
    change ((7 # 10) ^ Z.of_nat 0) with 1. ring.
  - cbn [steady_samples run_clock fold_left].
    set (t := last_frame_time c + d).
    set (c' := calculate_delta_time t c).
    assert (Ht : last_frame_time c' = t) by reflexivity.
    fold (run_clock (steady_samples t d n) c').
    rewrite <- Ht. rewrite IH by (rewrite Ht; unfold t; lra).
    unfold c'. rewrite (calculate_delta_time_steady t d c Hpos);
      [| unfold t; ring | exact Hlo | exact Hhi].
    rewrite Nat2Z.inj_succ. unfold Z.succ.
    rewrite Qpower_plus by discriminate. 
    change ((7 # 10) ^ 1) with (7 # 10). ring.
Qed.

Lemma frame_clock_converges_witness :
  0 < last_frame_time clock_after_first
  /\ delta_time
       (run_clock (steady_samples (last_frame_time clock_after_first)
                     (1 # 50) 3) clock_after_first) - (1 # 50)
     == (7 # 10) ^ 3 * (delta_time clock_after_first - (1 # 50)).
Proof.
  split; [reflexivity |].
  apply (frame_clock_converges (1 # 50) 3 clock_after_first);
    [reflexivity | discriminate | discriminate].
Defined.

(** ** Orbital camera *)

(** One call of [update_dynamic_smoothing] with the dynamic smoothing on and
    a wall clock that has not run backwards since the last input. *)
Lemma update_dynamic_smoothing_in_range (i : frame_input)
    (s : camera_state) :
  smoothing_boost_on_input (frame_config i) = true ->
  last_input_time s <= frame_time i ->
  smoothing_in_range s ->
  smoothing_in_range (update_dynamic_smoothing i s)
  /\ last_input_time (update_dynamic_smoothing i s) <= frame_time i.
Proof.
  intros Hb Ht [Hlo Hhi].
  unfold smoothing_in_range, update_dynamic_smoothing in *.
  rewrite Hb. cbn [negb]. cbv zeta.
  unfold fast_mode_smoothing, idle_smoothing_factor,
    input_smoothing_factor in *.
  destruct (bool_decide (keys_pressed i <> ∅)).
  - cbn [with_smoothing current_smoothing last_input_time].
    destruct (Qgt_bool _ _ || turbo_active i); repeat split; lra.
  - cbn [with_smoothing current_smoothing last_input_time].
    destruct (Qlt_bool (frame_time i - last_input_time s) (2 # 10)) eqn:E.
    + apply Qlt_bool_true in E.
      set (bf := (frame_time i - last_input_time s) / (2 # 10)).
      assert (Hbf0 : 0 <= bf).
      { unfold bf. apply Qle_shift_div_l; [reflexivity | lra]. }
      assert (Hbf1 : bf <= 1).
      { unfold bf. apply Qle_shift_div_r; [reflexivity | lra]. }
      destruct (Qgt_bool _ _); repeat split; lra.
    + repeat split; lra.
Qed.

Section CameraRuns.

Variables np_radians np_sin np_cos : Q -> Q.

Let step := update_camera_position np_radians np_sin np_cos.
Let run := run_camera np_radians np_sin np_cos.

Lemma update_camera_position_smoothing (i : frame_input)
    (s : camera_state) :
  current_smoothing (step i s)
  = current_smoothing (update_dynamic_smoothing i s)
  /\ last_input_time (step i s)
     = last_input_time (update_dynamic_smoothing i s).
Proof. split; reflexivity. Qed.

Lemma run_camera_smoothing_in_range (frames : list frame_input) (t : Q)
    (s : camera_state) :
  forward_frames t frames -> last_input_time s <= t ->
  smoothing_in_range s ->
  smoothing_in_range (run frames s).
Proof.
  revert t s. induction frames as [| i frames IH]; intros t s HF Ht Hs.
  - exact Hs.
  - destruct HF as (Hti & Hb & HF).
    destruct (update_dynamic_smoothing_in_range i s Hb) as [Hs' Ht'];
      [lra | exact Hs |].
    unfold run. cbn [run_camera fold_left].
    apply (IH (frame_time i)); [exact HF | exact Ht' | exact Hs'].
Qed.


End CameraRuns.

(** X6. From the default camera, over any frames whose wall clock never
    runs backwards and that keep the dynamic smoothing on, whatever the
    keys, turbo flag, deltas and speeds, the smoothing factor stays between
    [fast_mode_smoothing] (0.08) and [idle_smoothing_factor] (0.88). *)
Theorem smoothing_factor_stays_in_range (np_radians np_sin np_cos : Q -> Q)
    (frames : list frame_input) :
  forward_frames 0 frames ->
  let s := run_camera np_radians np_sin np_cos frames initial_camera in
  8 # 100 <= current_smoothing s /\ current_smoothing s <= 88 # 100.
Proof.
  intros HF.
  apply (run_camera_smoothing_in_range np_radians np_sin np_cos frames 0
           initial_camera HF).
  - cbn. lra.
  - unfold smoothing_in_range, fast_mode_smoothing, idle_smoothing_factor.
    cbn. split; lra.
Qed.

Lemma smoothing_factor_stays_in_range_witness :
  forward_frames 0 (hold_key K_d (frame_times (1 # 60) 3))
  /\ current_smoothing
       (run_camera no_trig no_trig no_trig
          (hold_key K_d (frame_times (1 # 60) 3)) initial_camera)
     <= 88 # 100.
Proof.
  assert (HF : forward_frames 0 (hold_key K_d (frame_times (1 # 60) 3))).
  { cbn. repeat split; discriminate. }
  split; [exact HF |].
  exact (proj2 (smoothing_factor_stays_in_range no_trig no_trig no_trig
                  (hold_key K_d (frame_times (1 # 60) 3)) HF)).
Defined.



Section EyeReach.

Variables np_radians np_sin np_cos : Q -> Q.

Hypothesis sin_range : forall x, - (1) <= np_sin x /\ np_sin x <= 1.
Hypothesis cos_range : forall x, - (1) <= np_cos x /\ np_cos x <= 1.





End EyeReach.




(** ** The animation controls *)

Lemma py_max_ge (a b : Q) : a <= py_max a b /\ b <= py_max a b.
Proof.
  unfold py_max. destruct (Qgt_bool b a) eqn:E.
  - apply Qgt_bool_true in E. split; lra.
  - apply Qgt_bool_false in E. split; lra.
Qed.

Lemma py_max_cases (a b : Q) : py_max a b = a \/ py_max a b = b.
Proof. unfold py_max. destruct (Qgt_bool b a); auto. Qed.

Lemma py_min_le (a b : Q) : py_min a b <= a /\ py_min a b <= b.
Proof.
  unfold py_min. destruct (Qlt_bool b a) eqn:E.
  - apply Qlt_bool_true in E. split; lra.
  - apply Qlt_bool_false in E. split; lra.
Qed.

Lemma py_min_cases (a b : Q) : py_min a b = a \/ py_min a b = b.
Proof. unfold py_min. destruct (Qlt_bool b a); auto. Qed.

Lemma py_mod_360 (x : Q) : 0 <= py_mod x 360 /\ py_mod x 360 < 360.
Proof. apply py_mod_bounds. reflexivity. Qed.

Ltac case_ifs :=
  repeat match goal with
         | |- context [if ?b then _ else _] => destruct b eqn:?
         end.

Lemma update_all_animation_systems_in_range (np_sin : Q -> Q) (dt : Q)
    (a : animation_state) :
  animation_in_range a ->
  animation_in_range (update_all_animation_systems np_sin dt a).
Proof.
  intros (Hm & Ha & Ho & Hr & Hs).
  unfold animation_in_range, update_all_animation_systems,
    update_all_animations, update_model_animation, advance_total_time.
  cbn [animation_paused model_animation_paused animation_speed_multiplier
       model_rotation_angle light_orbit_angle current_auto_rotation
       model_rotation_speed total_animation_time].
  case_ifs;
    cbn [animation_paused model_animation_paused animation_speed_multiplier
         model_rotation_angle light_orbit_angle current_auto_rotation
         model_rotation_speed total_animation_time];
    repeat split; try tauto; try apply py_mod_360.
Qed.

Section LightRanges.

Variables np_radians np_sin np_cos : Q -> Q.
Variable np_pi : Q.

Lemma set_light_xyz_coords (x y z : Q) (l : light_state) :
  light_x (set_light_xyz x y z l) = x
  /\ light_y (set_light_xyz x y z l) = y
  /\ light_z (set_light_xyz x y z l) = z
  /\ light_w (set_light_xyz x y z l) = light_w l
  /\ light_rotation_angle (set_light_xyz x y z l) = light_rotation_angle l
  /\ animate_light (set_light_xyz x y z l) = animate_light l.
Proof.
  unfold set_light_xyz, light_x, light_y, light_z, light_w.
  destruct (light_position l) as [[[x0 y0] z0] w0]. repeat split.
Qed.

Lemma update_light_animation_in_range (dt shininess : Q)
    (a : animation_state) (l : light_state) :
  animation_in_range a -> light_in_range l shininess ->
  let '(a', l') :=
    update_light_animation np_radians np_sin np_cos np_pi dt (a, l) in
  animation_in_range a' /\ light_in_range l' shininess
  /\ total_animation_time a' = total_animation_time a
  /\ animate_light l' = animate_light l.
Proof.
  destruct a as [tt mult mp ang spd oe oa os be bs bo pe pr ap car msg mt].
  destruct l as [[[[lx ly] lz] lw] al ra].
  unfold animation_in_range, light_in_range, light_y, light_w.
  cbn [animation_speed_multiplier model_rotation_angle light_orbit_angle
       current_auto_rotation model_animation_paused model_rotation_speed
       light_position light_rotation_angle].
  intros (Hm & Ha & Ho & Hr & Hs) (Hy & Hw & Hl & Hsh).
  unfold update_light_animation, default_light_position,
    light_orbit_center, set_light_orbit_angle, set_light_bobbing_offset,
    set_light_xyz.
  cbn [animate_light light_position light_rotation_angle
       light_orbit_enabled light_bobbing_enabled light_path_enabled
       animation_speed_multiplier model_rotation_angle light_orbit_angle
       current_auto_rotation model_animation_paused model_rotation_speed
       total_animation_time light_bobbing_speed light_orbit_speed].
  destruct al; [repeat split; tauto |].
  destruct (Qgt_bool dt 0); [| repeat split; tauto].
  destruct oe, be, pe;
    cbn [orb animate_light light_position light_rotation_angle
         light_orbit_enabled light_bobbing_enabled light_path_enabled
         animation_speed_multiplier model_rotation_angle light_orbit_angle
         current_auto_rotation model_animation_paused model_rotation_speed
         total_animation_time light_bobbing_speed light_orbit_speed];
    repeat split; try tauto; try apply py_mod_360;
    try (match goal with
         | |- _ <= py_max ?a ?b =>
             pose proof (py_max_ge a b); lra
         end).
Qed.

Lemma update_lighting_system_in_range (lighting_enabled : bool)
    (dt shininess : Q) (a : animation_state) (l : light_state) :
  animation_in_range a -> light_in_range l shininess ->
  let '(_, (a', l')) :=
    update_lighting_system np_radians np_sin np_cos np_pi lighting_enabled
      dt (a, l) in
  animation_in_range a' /\ light_in_range l' shininess
  /\ total_animation_time a' = total_animation_time a.
Proof.
  intros HA HL. unfold update_lighting_system.
  set (l1 := if animate_light l && Qgt_bool dt 0 then _ else l).
  assert (HL1 : light_in_range l1 shininess).
  { unfold l1. destruct (animate_light l && Qgt_bool dt 0); [| exact HL].
    destruct HL as (Hy & Hw & Hl & Hsh). unfold light_in_range.
    match goal with
    | |- context [set_light_xyz ?x ?y ?z ?l0] =>
        destruct (set_light_xyz_coords x y z l0)
          as (_ & Ey' & _ & Ew' & Er' & _)
    end.
    rewrite Ey', Ew', Er'. cbn [light_rotation_angle].
    repeat split; try tauto; try apply py_mod_360; try lra. }
  pose proof (update_light_animation_in_range dt shininess a l1 HA HL1) as H.
  destruct (update_light_animation _ _ _ _ dt (a, l1)) as [a' l'].
  tauto.
Qed.

End LightRanges.

Section ControlRanges.

Variables np_radians np_sin np_cos : Q -> Q.
Variable np_pi : Q.
Variable format_float : nat -> Q -> string.

Let act := do_control np_radians np_sin np_cos np_pi format_float.
Let session := run_controls np_radians np_sin np_cos np_pi format_float.

Lemma apply_animation_preset_in_range (n ticks : Z) (a : animation_state) :
  animation_in_range a ->
  animation_in_range (snd (apply_animation_preset n ticks a)).
Proof.
  intros (Hm & Ha & Ho & Hr & Hs).
  unfold apply_animation_preset. rewrite animation_presets_lookup.
  unfold animation_in_range.
  repeat case_decide; cbn; repeat split; try tauto; try lra;
    try discriminate; try reflexivity.
Qed.

Lemma toggle_model_animation_in_range (ticks : Z) (a : animation_state) :
  animation_in_range a ->
  animation_in_range (toggle_model_animation ticks a).
Proof.
  intros (Hm & Ha & Ho & Hr & Hs).
  unfold animation_in_range, toggle_model_animation, set_status_message.
  cbn [animation_speed_multiplier model_rotation_angle light_orbit_angle
       current_auto_rotation model_animation_paused model_rotation_speed].
  repeat split; try tauto.
  intros Hp. rewrite Hp. cbn [negb andb].
  destruct (Qle_bool (model_rotation_speed a) (1 # 10)) eqn:E.
  - reflexivity.
  - apply Qnot_le_lt. intros H. apply Qle_bool_iff in H. congruence.
Qed.

Lemma move_light_in_range (direction : string) (ticks : Z) (shininess : Q)
    (a : animation_state) (l : light_state) :
  light_in_range l shininess ->
  light_in_range (snd (move_light format_float direction ticks (a, l)))
    shininess.
Proof.
  destruct l as [[[[lx ly] lz] lw] al ra].
  unfold light_in_range, light_y, light_w, move_light, set_light_xyz,
    light_move_speed.
  cbn [light_position light_rotation_angle snd].
  intros (Hy & Hw & Hl & Hsh).
  case_ifs; cbn [snd light_position light_rotation_angle];
    repeat split; try tauto; try lra.
  apply py_max_ge.
Qed.

Lemma adjust_material_shininess_in_range (change : Q) (ticks : Z)
    (a : animation_state) (m : Q) :
  1 <= snd (adjust_material_shininess format_float change ticks (a, m))
  /\ snd (adjust_material_shininess format_float change ticks (a, m))
     <= 128.
Proof.
  unfold adjust_material_shininess. cbn [snd].
  split; [apply py_max_ge |].
  destruct (py_max_cases 1 (py_min 128 (m + change))) as [E | E];
    rewrite E; [discriminate | apply py_min_le].
Qed.

Lemma do_control_in_range (c : control) (ticks : Z) (w : world) :
  world_in_range w -> world_in_range (act c ticks w).
Proof.
  destruct w as [a l m]. unfold world_in_range.
  cbn [w_animation w_light w_shininess]. intros [HA HL].
  unfold act, do_control. cbn [w_animation w_light w_shininess].
  destruct c as [dt le | | | | | | ds | n | | dir | ch].
  - pose proof (update_lighting_system_in_range np_radians np_sin np_cos
                  np_pi le dt m a l HA HL) as H.
    destruct (update_lighting_system _ _ _ _ le dt (a, l)) as [g [a' l']].
    destruct H as (HA' & HL' & _).
    cbn [w_animation w_light w_shininess]. split; [| exact HL'].
    apply update_all_animation_systems_in_range. exact HA'.
  - split; [apply toggle_model_animation_in_range; exact HA | exact HL].
  - split; [exact HA | exact HL].
  - split; [exact HA | exact HL].
  - split; [exact HA | exact HL].
  - cbn. split; [exact HA | exact HL].
  - split; [| exact HL].
    destruct HA as (Hm & Ha & Ho & Hr & Hs).
    unfold animation_in_range, adjust_animation_speed,
      set_animation_speed_multiplier, set_status_message.
    cbn [animation_speed_multiplier model_rotation_angle light_orbit_angle
         current_auto_rotation model_animation_paused model_rotation_speed].
    repeat split; try tauto; apply np_clip_bounds; discriminate.
  - split; [apply apply_animation_preset_in_range; exact HA | exact HL].
  - destruct HA as (Hm & Ha & Ho & Hr & Hs).
    destruct HL as (Hy & Hw & Hl & Hsh).
    destruct l as [[[[lx ly] lz] lw] al ra].
    unfold reset_all_animations, set_status_message, set_light_xyz,
      default_light_position, animation_in_range, light_in_range,
      light_y, light_w in *.
    cbn [light_position animate_light light_rotation_angle] in *.
    destruct al; cbn; repeat split; try tauto; try lra; try discriminate;
      try reflexivity.
  - pose proof (move_light_in_range dir ticks m a l HL) as H.
    destruct (move_light format_float dir ticks (a, l)) as [a' l'] eqn:E.
    cbn [w_animation w_light w_shininess snd] in *. split; [| exact H].
    unfold move_light in E. destruct (light_position l) as [[[x y] z] w0].
    injection E as <- _. exact HA.
  - pose proof (adjust_material_shininess_in_range ch ticks a m) as H.
    destruct (adjust_material_shininess format_float ch ticks (a, m))
      as [a' m'] eqn:E.
    cbn [w_animation w_light w_shininess snd] in *.
    unfold adjust_material_shininess in E. injection E as <- _.
    split; [exact HA |].
    destruct HL as (Hy & Hw & Hl & _). repeat split; tauto.
Qed.

Lemma run_controls_in_range (cs : list (control * Z)) (w : world) :
  world_in_range w -> world_in_range (session cs w).
Proof.
  revert w. induction cs as [| [c t] cs IH]; intros w Hw; [exact Hw |].
  unfold session. cbn [run_controls fold_left fst snd].
  apply IH. apply do_control_in_range. exact Hw.
Qed.

End ControlRanges.

Lemma initial_world_in_range : world_in_range initial_world.
Proof.
  unfold world_in_range, animation_in_range, light_in_range. cbn.
  repeat split; try discriminate; try reflexivity.
Qed.

(** X9. Over any session of the animated viewer (rendered frames with any
    delta, toggles, speed adjustments, presets with any number, resets,
    light moves, shininess changes), from the state the module is loaded
    with: the speed multiplier stays in [0.1, 5], the model rotation, the
    light orbit angle and the legacy auto-rotation stay in [0, 360), and
    whenever the model animation is not paused its rotation speed exceeds
    0.1 degrees a second. *)
Theorem animation_state_stays_in_range (np_radians np_sin np_cos : Q -> Q)
    (np_pi : Q) (format_float : nat -> Q -> string)
    (cs : list (control * Z)) :
  let a := w_animation
             (run_controls np_radians np_sin np_cos np_pi format_float cs
                initial_world) in
  (1 # 10 <= animation_speed_multiplier a
   /\ animation_speed_multiplier a <= 5)
  /\ (0 <= model_rotation_angle a /\ model_rotation_angle a < 360)
  /\ (0 <= light_orbit_angle a /\ light_orbit_angle a < 360)
  /\ (0 <= current_auto_rotation a /\ current_auto_rotation a < 360)
  /\ (model_animation_paused a = true \/ 1 # 10 < model_rotation_speed a).
Proof.
  pose proof (run_controls_in_range np_radians np_sin np_cos np_pi
                format_float cs initial_world initial_world_in_range)
    as [(Hm & Ha & Ho & Hr & Hs) _].
  cbv zeta. repeat split; try tauto.
  destruct (model_animation_paused _); [left; reflexivity | right; auto].
Qed.

(** X10. Over any such session the light never sinks below height 0.1, its
    homogeneous coordinate stays 1 (a point light), and the material
    shininess stays in [1, 128]. *)
Theorem light_and_material_stay_in_range
    (np_radians np_sin np_cos : Q -> Q) (np_pi : Q)
    (format_float : nat -> Q -> string) (cs : list (control * Z)) :
  let w := run_controls np_radians np_sin np_cos np_pi format_float cs
             initial_world in
  1 # 10 <= light_y (w_light w)
  /\ light_w (w_light w) == 1
  /\ (1 <= w_shininess w /\ w_shininess w <= 128).
Proof.
  pose proof (run_controls_in_range np_radians np_sin np_cos np_pi
                format_float cs initial_world initial_world_in_range)
    as [_ (Hy & Hw & _ & Hsh)].
  cbv zeta. repeat split; tauto.
Qed.

Section ControlTime.

Variables np_radians np_sin np_cos : Q -> Q.
Variable np_pi : Q.
Variable format_float : nat -> Q -> string.

Let act := do_control np_radians np_sin np_cos np_pi format_float.
Let session := run_controls np_radians np_sin np_cos np_pi format_float.

Lemma do_control_total_time (c : control) (ticks : Z) (w : world) :
  world_in_range w -> c <> ResetAnimations ->
  total_animation_time (w_animation w)
  <= total_animation_time (w_animation (act c ticks w)).
Proof.
  destruct w as [a l m]. unfold world_in_range.
  cbn [w_animation w_light w_shininess]. intros [HA HL] Hc.
  unfold act, do_control. cbn [w_animation w_light w_shininess].
  destruct c as [dt le | | | | | | ds | n | | dir | ch];
    try (cbn; lra).
  - pose proof (update_lighting_system_in_range np_radians np_sin np_cos
                  np_pi le dt m a l HA HL) as H.
    destruct (update_lighting_system _ _ _ _ le dt (a, l)) as [g [a' l']].
    destruct H as (((Hm1 & Hm2) & _) & _ & Et).
    cbn [w_animation]. rewrite update_all_animation_systems_total_time.
    rewrite Et. destruct (Qgt_bool dt 0) eqn:E; [| lra].
    apply Qgt_bool_true in E.
    assert (0 <= dt * animation_speed_multiplier a')
      by (apply Qmult_le_0_compat; lra).
    lra.
  - unfold apply_animation_preset.
    destruct (animation_presets !! n); cbn; lra.
  - contradiction.
  - unfold move_light. destruct (light_position l) as [[[x y] z] w0].
    cbn. lra.
Qed.

Lemma run_controls_total_time (cs : list (control * Z)) (w : world) :
  world_in_range w -> Forall keeps_time cs ->
  total_animation_time (w_animation w)
  <= total_animation_time (w_animation (session cs w)).
Proof.
  revert w. induction cs as [| [c t] cs IH]; intros w Hw HF.
  - cbn. lra.
  - apply Forall_cons_iff in HF. destruct HF as [Hc HF].
    unfold session. cbn [run_controls fold_left fst snd].
    apply Qle_trans
      with (total_animation_time (w_animation (act c t w))).
    + apply do_control_total_time; [exact Hw | exact Hc].
    + apply IH; [| exact HF].
      apply do_control_in_range. exact Hw.
Qed.

End ControlTime.

(** X11. The animation time never runs backwards except by a reset: in a
    session from the loaded state, after any controls [before], any further
    controls [after] that contain no [reset_all_animations] leave
    [total_animation_time] at least where it was. *)
Theorem animation_time_never_decreases (np_radians np_sin np_cos : Q -> Q)
    (np_pi : Q) (format_float : nat -> Q -> string)
    (before after : list (control * Z)) :
  Forall keeps_time after ->
  total_animation_time
    (w_animation
       (run_controls np_radians np_sin np_cos np_pi format_float before
          initial_world))
  <= total_animation_time
       (w_animation
          (run_controls np_radians np_sin np_cos np_pi format_float
             (before ++ after) initial_world)).
Proof.
  intros HF. unfold run_controls at 2. rewrite fold_left_app.
  apply (run_controls_total_time np_radians np_sin np_cos np_pi format_float
           after).
  - apply run_controls_in_range. exact initial_world_in_range.
  - exact HF.
Qed.

Lemma animation_time_never_decreases_witness :
  Forall keeps_time [(RenderFrame (1 # 60) true, 0%Z); (ApplyPreset 4, 5%Z)]
  /\ total_animation_time
       (w_animation
          (run_controls no_trig no_trig no_trig 3 no_format
             [(AdjustSpeed (5 # 10), 0%Z)] initial_world))
     <= total_animation_time
          (w_animation
             (run_controls no_trig no_trig no_trig 3 no_format
                ([(AdjustSpeed (5 # 10), 0%Z)]
                 ++ [(RenderFrame (1 # 60) true, 0%Z);
                     (ApplyPreset 4, 5%Z)])
                initial_world)).
Proof.
  assert (HF : Forall keeps_time
                 [(RenderFrame (1 # 60) true, 0%Z); (ApplyPreset 4, 5%Z)])
    by (repeat constructor; discriminate).
  split; [exact HF |].
  exact (animation_time_never_decreases no_trig no_trig no_trig 3 no_format
           [(AdjustSpeed (5 # 10), 0%Z)] _ HF).
Defined.

(** X12. A preset followed by [reset_all_animations] does not bring the
    light speeds back: the reset restores the pause flag, the rotation
    angle and speed, the three channel flags, the orbit angle, the bobbing
    offset, the speed multiplier, the total time and the preset number to
    their defaults, but [light_orbit_speed] and [light_bobbing_speed] stay
    those of the preset. *)
Theorem reset_keeps_light_speeds (n : Z) (p : preset) (ticks ticks' : Z)
    (a : animation_state) (l : light_state) :
  animation_presets !! n = Some p ->
  let a' :=
    fst (reset_all_animations ticks'
           (snd (apply_animation_preset n ticks a), l)) in
  (light_orbit_speed a' = default 45 (preset_light_orbit_speed p)
   /\ light_bobbing_speed a' = default 2 (preset_light_bobbing_speed p))
  /\ (model_animation_paused a' = false
      /\ model_rotation_angle a' = 0
      /\ model_rotation_speed a' = 30
      /\ light_orbit_enabled a' = false
      /\ light_orbit_angle a' = 0
      /\ light_bobbing_enabled a' = false
      /\ light_bobbing_offset a' = 0
      /\ light_path_enabled a' = false
      /\ animation_speed_multiplier a' = 1
      /\ total_animation_time a' = 0
      /\ current_animation_preset a' = 1%Z).
Proof.
  intros Hp. cbv zeta. unfold apply_animation_preset. rewrite Hp.
  unfold reset_all_animations. cbn. repeat split.
Qed.

Lemma reset_keeps_light_speeds_witness :
  animation_presets !! 4%Z = Some hyperdrive
  /\ light_orbit_speed
       (fst (reset_all_animations 0
               (snd (apply_animation_preset 4 0 initial_animation),
                initial_light))) = 90.
Proof.
  split; [reflexivity |].
  exact (proj1 (proj1 (reset_keeps_light_speeds 4 hyperdrive 0 0
                         initial_animation initial_light eq_refl))).
Defined.

Section AnimatedLight.

Variables np_radians np_sin np_cos : Q -> Q.
Variable np_pi : Q.

Let animate := update_light_animation np_radians np_sin np_cos np_pi.

(** X13. While a channel of the light animation is on (and the legacy
    orbit is off), every frame with a positive delta recomputes the light
    from the default position and the channel phases: what the light
    position was before, manual moves included, has no effect on the new
    x, y, z. With every channel off the frame leaves the light where it
    is. *)
Theorem animated_light_forgets_position (dt : Q) (a : animation_state)
    (l1 l2 : light_state) :
  0 < dt -> animate_light l1 = false -> animate_light l2 = false ->
  (light_animated a = true ->
   fst (animate dt (a, l1)) = fst (animate dt (a, l2))
   /\ light_x (snd (animate dt (a, l1))) = light_x (snd (animate dt (a, l2)))
   /\ light_y (snd (animate dt (a, l1))) = light_y (snd (animate dt (a, l2)))
   /\ light_z (snd (animate dt (a, l1)))
      = light_z (snd (animate dt (a, l2))))
  /\ (light_animated a = false -> animate dt (a, l1) = (a, l1)).
Proof.
  intros Hdt H1 H2. apply Qgt_bool_true in Hdt.
  destruct a as [tt mult mp ang spd oe oa os be bs bo pe pr ap car msg mt].
  destruct l1 as [[[[x1 y1] z1] w1] al1 ra1].
  destruct l2 as [[[[x2 y2] z2] w2] al2 ra2].
  cbn [animate_light] in H1, H2. subst al1 al2.
  unfold animate, update_light_animation, light_animated,
    default_light_position, light_orbit_center, set_light_orbit_angle,
    set_light_bobbing_offset, set_light_xyz, light_x, light_y, light_z.
  cbn [animate_light light_position light_rotation_angle
       light_orbit_enabled light_bobbing_enabled light_path_enabled
       animation_speed_multiplier light_orbit_angle
       total_animation_time light_bobbing_speed light_orbit_speed].
  rewrite Hdt.
  destruct oe, be, pe; cbn [orb fst snd light_position
       light_orbit_enabled light_bobbing_enabled light_path_enabled
       animation_speed_multiplier light_orbit_angle
       total_animation_time light_bobbing_speed light_orbit_speed];
    split; intros H; try discriminate H; repeat split.
Qed.

End AnimatedLight.

Lemma animated_light_forgets_position_witness :
  0 < 1 # 60
  /\ animate_light initial_light = false
  /\ light_animated (snd (apply_animation_preset 4 0 initial_animation))
     = true
  /\ light_y
       (snd (update_light_animation no_trig no_trig no_trig 3 (1 # 60)
               (snd (apply_animation_preset 4 0 initial_animation),
                initial_light)))
     = light_y
         (snd (update_light_animation no_trig no_trig no_trig 3 (1 # 60)
                 (snd (apply_animation_preset 4 0 initial_animation),
                  set_light_xyz 0 9 0 initial_light))).
Proof.
  split; [reflexivity |]. split; [reflexivity |]. split; [reflexivity |].
  pose proof (animated_light_forgets_position no_trig no_trig no_trig 3
                (1 # 60) (snd (apply_animation_preset 4 0 initial_animation))
                initial_light (set_light_xyz 0 9 0 initial_light)
                eq_refl eq_refl eq_refl) as [H _].
  exact (proj1 (proj2 (proj2 (H eq_refl)))).
Defined.

Section AnimatedLightBox.

Variables np_radians np_sin np_cos : Q -> Q.
Variable np_pi : Q.
Hypothesis sin_bounded : forall x, - (1) <= np_sin x /\ np_sin x <= 1.
Hypothesis cos_bounded : forall x, - (1) <= np_cos x /\ np_cos x <= 1.

Lemma animated_light_box (dt : Q) (a : animation_state) (l : light_state) :
  0 < dt -> animate_light l = false -> light_animated a = true ->
  let l' :=
    snd (update_light_animation np_radians np_sin np_cos np_pi dt (a, l)) in
  (- (10) <= light_x l' /\ light_x l' <= 10)
  /\ (15 # 10 <= light_y l' /\ light_y l' <= 65 # 10)
  /\ (- (8) <= light_z l' /\ light_z l' <= 8).
Proof.
  intros Hdt Hal Han. apply Qgt_bool_true in Hdt.
  destruct a as [tt mult mp ang spd oe oa os be bs bo pe pr ap car msg mt].
  destruct l as [[[[x1 y1] z1] w1] al1 ra1].
  cbn [animate_light] in Hal. subst al1.
  unfold update_light_animation, light_animated,
    default_light_position, light_orbit_center, set_light_orbit_angle,
    set_light_bobbing_offset, set_light_xyz, light_x, light_y, light_z,
    light_orbit_radius, light_bobbing_amplitude, light_path_scale,
    light_path_speed in *.
  cbn [animate_light light_position light_rotation_angle
       light_orbit_enabled light_bobbing_enabled light_path_enabled
       animation_speed_multiplier light_orbit_angle
       total_animation_time light_bobbing_speed light_orbit_speed] in *.
  rewrite Hdt. cbv zeta.
  assert (Hhalf : forall v, 4 * v / 2 == 2 * v) by (intros v; field).
  destruct oe, be, pe; try discriminate Han;
    cbn [orb fst snd light_position
         light_orbit_enabled light_bobbing_enabled light_path_enabled
         animation_speed_multiplier light_orbit_angle
         total_animation_time light_bobbing_speed light_orbit_speed];
    rewrite ?Hhalf;
    repeat match goal with
           | |- context [np_sin ?t] =>
               let H := fresh "Hsin" in
               pose proof (sin_bounded t) as H;
               generalize dependent (np_sin t); intros
           | |- context [np_cos ?t] =>
               let H := fresh "Hcos" in
               pose proof (cos_bounded t) as H;
               generalize dependent (np_cos t); intros
           end;
    repeat match goal with
           | |- context [py_max ?u ?v] =>
               let E := fresh "Emax" in
               let H := fresh "Hmax" in
               pose proof (py_max_ge u v) as H;
               destruct (py_max_cases u v) as [E | E]; rewrite E in H |- *
           end;
    repeat split; lra.
Qed.

End AnimatedLightBox.

(** X14. With a sine and a cosine that stay within [-1, 1], a frame of the
    light animation with some channel on (positive delta, legacy orbit off)
    leaves the light within the box [-10, 10] x [1.5, 6.5] x [-8, 8]: over
    the ground quad and never as low as the floor of 0.5 the code puts under
    it. *)
Theorem animated_light_stays_in_box (np_radians np_sin np_cos : Q -> Q)
    (np_pi dt : Q) (a : animation_state) (l : light_state) :
  (forall x, - (1) <= np_sin x /\ np_sin x <= 1) ->
  (forall x, - (1) <= np_cos x /\ np_cos x <= 1) ->
  0 < dt -> animate_light l = false -> light_animated a = true ->
  let l' :=
    snd (update_light_animation np_radians np_sin np_cos np_pi dt (a, l)) in
  (- (10) <= light_x l' /\ light_x l' <= 10)
  /\ (15 # 10 <= light_y l' /\ light_y l' <= 65 # 10)
  /\ (- (8) <= light_z l' /\ light_z l' <= 8).
Proof.
  intros Hs Hc. apply animated_light_box; assumption.
Qed.

Lemma animated_light_stays_in_box_witness :
  (forall x, - (1) <= three_fifths x /\ three_fifths x <= 1)
  /\ (forall x, - (1) <= four_fifths x /\ four_fifths x <= 1)
  /\ 15 # 10
     <= light_y
          (snd (update_light_animation no_trig three_fifths four_fifths 3
                  (1 # 60)
                  (snd (apply_animation_preset 5 0 initial_animation),
                   initial_light))).
Proof.
  assert (Hs : forall x, - (1) <= three_fifths x /\ three_fifths x <= 1)
    by (intros x; split; discriminate).
  assert (Hc : forall x, - (1) <= four_fifths x /\ four_fifths x <= 1)
    by (intros x; split; discriminate).
  split; [exact Hs |]. split; [exact Hc |].
  exact (proj1 (proj1 (proj2
           (animated_light_stays_in_box no_trig three_fifths four_fifths 3
              (1 # 60) (snd (apply_animation_preset 5 0 initial_animation))
              initial_light Hs Hc eq_refl eq_refl eq_refl)))).
Defined.

(** ** Moving the light by hand *)

Section MoveLight.

Variable format_float : nat -> Q -> string.

Let move := move_light format_float.

(** X15. A move of the light followed by the opposite move (forward/back,
    back/forward, left/right, right/left, up/down) brings a light that is
    at height 0.1 or above back to where it was; and a direction that is
    not one of the six names moves nothing. *)
Theorem move_light_undone_by_opposite (first second other : string)
    (t1 t2 : Z) (a : animation_state) (l : light_state) :
  In (first, second) opposite_moves -> ~ In other light_directions ->
  1 # 10 <= light_y l ->
  vec4_eq
    (light_position (snd (move second t2 (move first t1 (a, l)))))
    (light_position l)
  /\ snd (move other t1 (a, l)) = l.
Proof.
  intros Hin Hother Hy. split.
  - destruct l as [[[[x y] z] w] al ra].
    unfold light_y in Hy. cbn [light_position] in Hy.
    unfold opposite_moves in Hin. cbn [In] in Hin.
    destruct Hin as [E | [E | [E | [E | [E | []]]]]];
      injection E as <- <-;
      unfold move, move_light, set_light_xyz, vec4_eq, light_move_speed;
      cbn -[Qplus Qminus py_max Qeq String.append];
      repeat split; try ring.
    assert (Ey : y + (15 # 10) - (15 # 10) == y) by ring.
    destruct (py_max_cases (1 # 10) (y + (15 # 10) - (15 # 10)))
      as [Em | Em]; rewrite Em; [| exact Ey].
    pose proof (py_max_ge (1 # 10) (y + (15 # 10) - (15 # 10))) as [_ Hge].
    rewrite Em in Hge. lra.
  - destruct l as [[[[x y] z] w] al ra].
    unfold move, move_light, set_light_xyz. cbn [light_position snd].
    unfold light_directions in Hother. cbn [In] in Hother.
    repeat match goal with
           | |- context [String.eqb other ?s] =>
               destruct (String.eqb_spec other s);
               [exfalso; apply Hother; subst other; tauto |]
           end.
    reflexivity.
Qed.

End MoveLight.

Lemma move_light_undone_by_opposite_witness :
  In ("up", "down")%string opposite_moves
  /\ ~ In "sideways"%string light_directions
  /\ 1 # 10 <= light_y initial_light
  /\ vec4_eq
       (light_position
          (snd (move_light no_format "down" 0
                  (move_light no_format "up" 0
                     (initial_animation, initial_light)))))
       (light_position initial_light).
Proof.
  assert (Hin : In ("up", "down")%string opposite_moves)
    by (cbn; tauto).
  assert (Hno : ~ In "sideways"%string light_directions).
  { cbn. intros H. repeat destruct H as [H | H]; try discriminate H.
    exact H. }
  assert (Hy : 1 # 10 <= light_y initial_light) by discriminate.
  split; [exact Hin |]. split; [exact Hno |]. split; [exact Hy |].
  exact (proj1 (move_light_undone_by_opposite no_format "up" "down"
                  "sideways" 0 0 initial_animation initial_light
                  Hin Hno Hy)).
Defined.

(** ** Model geometry *)

Lemma column_min_spec (xs : list Q) (x : Q) :
  column_min x xs <= x /\ Forall (fun y => column_min x xs <= y) xs.
Proof.
  unfold column_min. revert x. induction xs as [| y ys IH]; intros x.
  - cbn. split; [lra | constructor].
  - cbn [fold_left]. destruct (IH (Qmin x y)) as [H1 H2].
    pose proof (Q.le_min_l x y). pose proof (Q.le_min_r x y).
    split; [lra |]. constructor; [lra | exact H2].
Qed.

Lemma column_max_spec (xs : list Q) (x : Q) :
  x <= column_max x xs /\ Forall (fun y => y <= column_max x xs) xs.
Proof.
  unfold column_max. revert x. induction xs as [| y ys IH]; intros x.
  - cbn. split; [lra | constructor].
  - cbn [fold_left]. destruct (IH (Qmax x y)) as [H1 H2].
    pose proof (Q.le_max_l x y). pose proof (Q.le_max_r x y).
    split; [lra |]. constructor; [lra | exact H2].
Qed.

Lemma column_bounds (f : vec3 -> Q) (v u : vec3) (rest : list vec3) :
  In u (v :: rest) ->
  column_min (f v) (map f rest) <= f u
  /\ f u <= column_max (f v) (map f rest).
Proof.
  intros Hin.
  destruct (column_min_spec (map f rest) (f v)) as [Hm1 Hm2].
  destruct (column_max_spec (map f rest) (f v)) as [HM1 HM2].
  destruct Hin as [<- | Hin]; [split; assumption |].
  rewrite List.Forall_forall in Hm2, HM2.
  assert (Hf : In (f u) (map f rest)) by (apply in_map; exact Hin).
  split; [apply Hm2 | apply HM2]; exact Hf.
Qed.

(** A coordinate after centring, and after scaling by [4 / D] when the
    largest extent [D] is positive. *)
Lemma centred_coordinate (lo hi c D : Q) :
  lo <= c -> c <= hi -> hi - lo <= D ->
  (0 < D ->
   - (2) <= (c - (lo + hi) / 2) * (4 / D)
   /\ (c - (lo + hi) / 2) * (4 / D) <= 2)
  /\ (D <= 0 ->
      - (2) <= c - (lo + hi) / 2 /\ c - (lo + hi) / 2 <= 2).
Proof.
  intros H1 H2 H3.
  assert (Eh : (lo + hi) / 2 == (lo + hi) * (1 # 2)) by reflexivity.
  split.
  - intros HD.
    assert (E : (c - (lo + hi) / 2) * (4 / D)
                == (4 * c - 2 * (lo + hi)) / D) by (field; lra).
    rewrite E. split.
    + apply Qle_shift_div_l; [exact HD | lra].
    + apply Qle_shift_div_r; [exact HD | lra].
  - intros HD. rewrite Eh. split; lra.
Qed.

(** X16. In exact arithmetic (the rounding of the binary64 operations is
    not modelled), [center_and_scale_model] keeps the number of vertices
    and puts every vertex in the box [-2, 2]^3, whatever the model: the
    centred model is scaled so that its largest extent is 4, and a model of
    a single point (or of coinciding points) ends at the origin. In
    binary64 the product [(v - center) * (4.0 / max_dimension)] is rounded,
    so a coordinate of the running code can pass the box by a rounding
    error (2.0000000000000004 instead of 2). *)
Theorem centered_model_fits_view_box (vertices : list vec3) :
  length (center_and_scale_model vertices) = length vertices
  /\ Forall in_view_box (center_and_scale_model vertices).
Proof.
  destruct vertices as [| v rest]; [split; [reflexivity | constructor] |].
  unfold center_and_scale_model.
  set (vs := v :: rest).
  cbn [vx vy vz].
  set (lx := column_min (vx v) (map vx rest)).
  set (ly := column_min (vy v) (map vy rest)).
  set (lz := column_min (vz v) (map vz rest)).
  set (hx := column_max (vx v) (map vx rest)).
  set (hy := column_max (vy v) (map vy rest)).
  set (hz := column_max (vz v) (map vz rest)).
  set (D := Qmax (Qmax (hx - lx) (hy - ly)) (hz - lz)).
  assert (HDx : hx - lx <= D).
  { unfold D. apply Qle_trans with (Qmax (hx - lx) (hy - ly));
      apply Q.le_max_l. }
  assert (HDy : hy - ly <= D).
  { unfold D. apply Qle_trans with (Qmax (hx - lx) (hy - ly));
      [apply Q.le_max_r | apply Q.le_max_l]. }
  assert (HDz : hz - lz <= D) by (unfold D; apply Q.le_max_r).
  assert (Hb : forall u, In u vs ->
             (lx <= vx u /\ vx u <= hx) /\ (ly <= vy u /\ vy u <= hy)
             /\ (lz <= vz u /\ vz u <= hz)).
  { intros u Hu. repeat split;
      first [ apply (column_bounds vx v u rest Hu)
            | apply (column_bounds vy v u rest Hu)
            | apply (column_bounds vz v u rest Hu) ]. }
  destruct (Qgt_bool D 0) eqn:ED.
  - apply Qgt_bool_true in ED. split; [rewrite !length_map; reflexivity |].
    rewrite List.Forall_forall. intros w Hw.
    apply in_map_iff in Hw. destruct Hw as (c & <- & Hc).
    apply in_map_iff in Hc. destruct Hc as (u & <- & Hu).
    destruct (Hb u Hu) as ((X1 & X2) & (Y1 & Y2) & (Z1 & Z2)).
    unfold in_view_box. cbn [vx vy vz].
    repeat split;
      first [ apply (proj1 (centred_coordinate lx hx (vx u) D X1 X2 HDx) ED)
            | apply (proj1 (centred_coordinate ly hy (vy u) D Y1 Y2 HDy) ED)
            | apply (proj1 (centred_coordinate lz hz (vz u) D Z1 Z2 HDz)
                       ED) ].
  - apply Qgt_bool_false in ED. split; [rewrite length_map; reflexivity |].
    rewrite List.Forall_forall. intros w Hw.
    apply in_map_iff in Hw. destruct Hw as (u & <- & Hu).
    destruct (Hb u Hu) as ((X1 & X2) & (Y1 & Y2) & (Z1 & Z2)).
    unfold in_view_box. cbn [vx vy vz].
    repeat split;
      first [ apply (proj2 (centred_coordinate lx hx (vx u) D X1 X2 HDx) ED)
            | apply (proj2 (centred_coordinate ly hy (vy u) D Y1 Y2 HDy) ED)
            | apply (proj2 (centred_coordinate lz hz (vz u) D Z1 Z2 HDz)
                       ED) ].
Qed.

Section FaceNormalProperties.

Variable np_sqrt : Q -> Q.

Lemma np_row_some (vertices : list vec3) (i : Z) :
  is_Some (np_row vertices i) <-> index_in_range vertices i.
Proof.
  unfold np_row, index_in_range.
  set (n := Z.of_nat (length vertices)).
  destruct ((0 <=? i)%Z && (i <? n)%Z) eqn:E1.
  - apply andb_true_iff in E1. destruct E1 as [A B].
    apply Z.leb_le in A. apply Z.ltb_lt in B.
    split; [intros _; lia | intros _].
    destruct (nth_error vertices (Z.to_nat i)) eqn:E; [eauto |].
    apply nth_error_None in E. lia.
  - destruct ((- n <=? i)%Z && (i <? 0)%Z) eqn:E2.
    + apply andb_true_iff in E2. destruct E2 as [A B].
      apply Z.leb_le in A. apply Z.ltb_lt in B.
      split; [intros _; lia | intros _].
      destruct (nth_error vertices (Z.to_nat (n + i))) eqn:E; [eauto |].
      apply nth_error_None in E. lia.
    + split; [intros [x Hx]; discriminate |].
      intros H. apply andb_false_iff in E1. apply andb_false_iff in E2.
      rewrite Z.leb_gt, Z.ltb_ge in E1. rewrite Z.leb_gt, Z.ltb_ge in E2.
      lia.
Qed.

Lemma face_normal_fits (vertices : list vec3) (face : list Z) (n : vec3) :
  face_normal np_sqrt vertices face = Some n -> normal_fits vertices face n.
Proof.
  unfold face_normal, normal_fits.
  destruct face as [| i0 [| i1 [| i2 more]]];
    try (intros H; injection H as <-; reflexivity).
  destruct (np_row vertices i0) as [[[a0 b0] c0] |]; [| discriminate].
  destruct (np_row vertices i1) as [[[a1 b1] c1] |]; [| discriminate].
  destruct (np_row vertices i2) as [[[a2 b2] c2] |]; [| discriminate].
  intros H v0 v1 v2 E0 E1 E2.
  injection E0 as <-. injection E1 as <-. injection E2 as <-.
  injection H as <-.
  unfold vec3_sub, np_cross, np_dot. cbn [vx vy vz].
  set (len := np_sqrt _).
  destruct (Qgt_bool len 0) eqn:E.
  - apply Qgt_bool_true in E. split; field; lra.
  - split; ring.
Qed.

Lemma face_normal_some (vertices : list vec3) (face : list Z) :
  is_Some (face_normal np_sqrt vertices face)
  <-> face_in_range vertices face.
Proof.
  unfold face_normal, face_in_range.
  destruct face as [| i0 [| i1 [| i2 more]]];
    try (split; [tauto | eauto]).
  rewrite <- !np_row_some.
  destruct (np_row vertices i0), (np_row vertices i1),
    (np_row vertices i2);
    split; try (intros [x Hx]; discriminate Hx);
    try (intros (H0 & H1 & H2);
         first [ destruct H0 as [x Hx]; discriminate Hx
               | destruct H1 as [x Hx]; discriminate Hx
               | destruct H2 as [x Hx]; discriminate Hx ]);
    eauto.
Qed.

(** X17. In exact arithmetic (the rounding of the binary64 operations is
    not modelled): when [calculate_face_normals] returns, it returns one
    normal per face, in order, and the normal of each face of three or more
    vertices is orthogonal to the two edges from the first vertex of the
    face to its second and third (normalised or not); a face of fewer than
    three vertices gets [0, 0, 1]. In binary64 the cross product is
    rounded, so the normal the running code stores is orthogonal to the
    edges up to rounding. *)
Theorem face_normals_are_orthogonal (vertices : list vec3)
    (faces : list (list Z)) (normals : list vec3) :
  calculate_face_normals np_sqrt vertices faces = Some normals ->
  Forall2 (normal_fits vertices) faces normals.
Proof.
  revert normals. induction faces as [| face faces IH]; intros normals H.
  - injection H as <-. constructor.
  - cbn [calculate_face_normals] in H.
    destruct (face_normal np_sqrt vertices face) as [n |] eqn:En;
      [| discriminate].
    destruct (calculate_face_normals np_sqrt vertices faces) as [ns |];
      [| discriminate].
    injection H as <-. constructor.
    + apply face_normal_fits. exact En.
    + apply IH. reflexivity.
Qed.

(** X18. [calculate_face_normals] returns exactly when the first three
    indices of every face of three or more vertices are indices numpy
    accepts, that is within [-n, n) for [n] vertices (a negative index
    counting from the end); otherwise the [IndexError] of the first bad face
    ends the call. *)
Theorem face_normals_fail_on_bad_index (vertices : list vec3)
    (faces : list (list Z)) :
  is_Some (calculate_face_normals np_sqrt vertices faces)
  <-> Forall (face_in_range vertices) faces.
Proof.
  induction faces as [| face faces IH].
  - split; [constructor | cbn; eauto].
  - cbn [calculate_face_normals]. rewrite Forall_cons_iff.
    rewrite <- IH, <- face_normal_some.
    destruct (face_normal np_sqrt vertices face) as [n |].
    + destruct (calculate_face_normals np_sqrt vertices faces) as [ns |].
      * split; eauto.
      * split; [intros [x Hx]; discriminate Hx |].
        intros [_ [x Hx]]. discriminate Hx.
    + split; [intros [x Hx]; discriminate Hx |].
      intros [[x Hx] _]. discriminate Hx.
Qed.

End FaceNormalProperties.

Lemma face_normals_are_orthogonal_witness :
  calculate_face_normals Qsqrt_floor unit_triangle [[0; 1; -1]%Z]
  = Some [(0, 0, 1)]
  /\ Forall2 (normal_fits unit_triangle) [[0; 1; -1]%Z] [(0, 0, 1)].
Proof.
  assert (H : calculate_face_normals Qsqrt_floor unit_triangle
                [[0; 1; -1]%Z] = Some [(0, 0, 1)]).
  { vm_compute. reflexivity. }
  split; [exact H |].
  exact (face_normals_are_orthogonal Qsqrt_floor unit_triangle
           [[0; 1; -1]%Z] [(0, 0, 1)] H).
Defined.

(** ** The per-frame updates *)

Section RenderProperties.

Variables np_radians np_sin np_cos : Q -> Q.
Variable np_pi : Q.
Variable format_float : nat -> Q -> string.

Let frame := render_updates np_radians np_sin np_cos np_pi format_float.
Let frames := run_render np_radians np_sin np_cos np_pi format_float.

Lemma update_light_animation_keeps_time (dt : Q) (a : animation_state)
    (l : light_state) :
  let a' :=
    fst (update_light_animation np_radians np_sin np_cos np_pi dt (a, l)) in
  total_animation_time a' = total_animation_time a
  /\ animation_speed_multiplier a' = animation_speed_multiplier a.
Proof.
  destruct a as [tt mult mp ang spd oe oa os be bs bo pe pr ap car msg mt].
  destruct l as [[[[lx ly] lz] lw] al ra].
  unfold update_light_animation, default_light_position,
    light_orbit_center, set_light_orbit_angle, set_light_bobbing_offset,
    set_light_xyz.
  cbn [animate_light light_position light_orbit_enabled
       light_bobbing_enabled light_path_enabled].
  destruct al; [split; reflexivity |].
  destruct (Qgt_bool dt 0); [| split; reflexivity].
  destruct oe, be, pe; split; reflexivity.
Qed.

Lemma render_frame_world (dt : Q) (le : bool) (w : world) :
  0 < dt ->
  let w' := do_control np_radians np_sin np_cos np_pi format_float
              (RenderFrame dt le) 0 w in
  total_animation_time (w_animation w')
  = total_animation_time (w_animation w)
    + dt * animation_speed_multiplier (w_animation w)
  /\ animation_speed_multiplier (w_animation w')
     = animation_speed_multiplier (w_animation w).
Proof.
  intros Hdt. destruct w as [a l m].
  unfold do_control, update_lighting_system.
  cbn [w_animation w_light w_shininess].
  set (l1 := if animate_light l && Qgt_bool dt 0 then _ else l).
  pose proof (update_light_animation_keeps_time dt a l1) as [Et Em].
  destruct (update_light_animation _ _ _ _ dt (a, l1)) as [a' l'].
  cbn [fst] in Et, Em. cbn [w_animation].
  rewrite update_all_animation_systems_total_time.
  apply Qgt_bool_true in Hdt. rewrite Hdt, Et, Em. split; [reflexivity |].
  unfold update_all_animation_systems, update_all_animations,
    update_model_animation, advance_total_time.
  rewrite Hdt.
  cbn [animation_paused model_animation_paused animation_speed_multiplier].
  case_ifs; cbn [animation_speed_multiplier]; exact Em.
Qed.

Lemma run_render_time (rs : list render_input) (v : viewer) :
  Qeq_bool (last_frame_time (v_clock v)) 0 = true
  \/ delta_in_range (v_clock v) ->
  animation_speed_multiplier (w_animation (v_world v)) = 1 ->
  total_animation_time (w_animation (v_world v))
  == delta_time_sum (v_clock v) ->
  total_animation_time (w_animation (v_world (frames rs v)))
  == delta_time_sum (v_clock (frames rs v))
  /\ v_clock (frames rs v) = run_clock (map r_clock_time rs) (v_clock v).
Proof.
  revert v. induction rs as [| r rs IH]; intros v Hc Hm Ht.
  - cbn. split; [exact Ht | reflexivity].
  - unfold frames. cbn [run_render fold_left map run_clock].
    fold (frames rs (frame r v)).
    fold (run_clock (map r_clock_time rs)
            (calculate_delta_time (r_clock_time r) (v_clock v))).
    pose proof (calculate_delta_time_in_range (r_clock_time r) (v_clock v)
                  Hc) as Hr.
    assert (Hdt : 0 < delta_time
                        (calculate_delta_time (r_clock_time r) (v_clock v))).
    { destruct Hr as [Hlo _]. lra. }
    destruct (render_frame_world _ (r_lighting_enabled r) (v_world v) Hdt)
      as [Et Em].
    cbv zeta in Et, Em.
    destruct (IH (frame r v)) as [I1 I2].
    + right. exact Hr.
    + unfold frame, render_updates. cbn [v_world]. rewrite Em. exact Hm.
    + unfold frame, render_updates. cbn [v_world v_clock].
      rewrite Et, Hm.
      change (delta_time_sum
                (calculate_delta_time (r_clock_time r) (v_clock v)))
        with (delta_time_sum (v_clock v)
              + delta_time
                  (calculate_delta_time (r_clock_time r) (v_clock v))).
      rewrite Ht. ring.
    + split; [exact I1 | exact I2].
Qed.

End RenderProperties.

(** X19. In a viewer that only renders frames (no control touches the
    speed multiplier, which is 1) the animation time is the delta the frame
    clock has accumulated: after any frames from the loaded state,
    [total_animation_time] equals [delta_time_sum], so it lies between
    [n * 0.001] and [n * 0.033] after [n] frames, whatever the wall clock,
    the keys and the tuning. *)
Theorem animation_time_is_accumulated_delta
    (np_radians np_sin np_cos : Q -> Q) (np_pi : Q)
    (format_float : nat -> Q -> string) (rs : list render_input) :
  let v := run_render np_radians np_sin np_cos np_pi format_float rs
             initial_viewer in
  let n := inject_Z (Z.of_nat (length rs)) in
  total_animation_time (w_animation (v_world v))
  == delta_time_sum (v_clock v)
  /\ n * (1 # 1000) <= total_animation_time (w_animation (v_world v))
  /\ total_animation_time (w_animation (v_world v)) <= n * (33 # 1000).
Proof.
  destruct (run_render_time np_radians np_sin np_cos np_pi format_float rs
              initial_viewer) as [Ht Ec].
  { left. reflexivity. }
  { reflexivity. }
  { reflexivity. }
  cbv zeta. split; [exact Ht |].
  rewrite Ht, Ec. change (v_clock initial_viewer) with initial_clock.
  destruct (run_clock_books (map r_clock_time rs) initial_clock)
    as (_ & Hlo & Hhi).
  { left. reflexivity. }
  cbv zeta in Hlo, Hhi. rewrite length_map in Hlo, Hhi.
  cbn [delta_time_sum initial_clock] in Hlo, Hhi.
  split; lra.
Qed.

(** ** Hot reload *)

(** X20. [check_for_file_changes] never reports the same modification
    twice: whatever the recorded time, a check that sees the modification
    time [m] (and records it when it is the first one or a later one) makes
    the next check that sees [m] again return [False]; and a check that
    returns [True] saw a time strictly later than the recorded one. *)
Theorem file_change_reported_once (m last_modified : Q) :
  let '(reported, recorded) :=
    check_for_file_changes (Some m) last_modified in
  fst (check_for_file_changes (Some m) recorded) = false
  /\ (reported = false \/ (last_modified < m /\ recorded = m)).
Proof.
  unfold check_for_file_changes.
  destruct (Qeq_bool last_modified 0) eqn:E0.
  - cbn [fst]. split; [| left; reflexivity].
    destruct (Qeq_bool m 0); [reflexivity |].
    assert (Qgt_bool m m = false) as -> by (apply Qgt_bool_false; lra).
    reflexivity.
  - destruct (Qgt_bool m last_modified) eqn:E1.
    + split.
      * destruct (Qeq_bool m 0); [reflexivity |].
        assert (Qgt_bool m m = false) as -> by (apply Qgt_bool_false; lra).
        reflexivity.
      * right. apply Qgt_bool_true in E1. split; [exact E1 | reflexivity].
    + rewrite E0, E1. split; [reflexivity | left; reflexivity].
Qed.

(** ** The legacy light orbit *)

(** X21. While the legacy light orbit is on, a frame with a positive delta
    ignores the animation channels altogether (the animation state is left
    as it is) and puts the light at [(6 cos t, 5, 6 sin t)] for the new
    orbit angle [t]; from an angle that is not negative (the angle starts
    at 0 and only this code moves it) [t] stays in [0, 360), and with a
    sine and a cosine within [-1, 1] the light is within 6 of the vertical
    axis along x and along z. The position sent to OpenGL, when lighting is
    enabled, is that new position. *)
Theorem legacy_light_orbits_within_radius_6
    (np_radians np_sin np_cos : Q -> Q) (np_pi dt : Q)
    (lighting_enabled : bool) (a : animation_state) (l : light_state) :
  (forall x, - (1) <= np_sin x /\ np_sin x <= 1) ->
  (forall x, - (1) <= np_cos x /\ np_cos x <= 1) ->
  animate_light l = true -> 0 <= light_rotation_angle l -> 0 < dt ->
  let '(calls, (a', l')) :=
    update_lighting_system np_radians np_sin np_cos np_pi lighting_enabled
      dt (a, l) in
  a' = a
  /\ light_y l' = 5
  /\ (0 <= light_rotation_angle l' /\ light_rotation_angle l' < 360)
  /\ light_x l' = 6 * np_cos (np_radians (light_rotation_angle l'))
  /\ light_z l' = 6 * np_sin (np_radians (light_rotation_angle l'))
  /\ (- (6) <= light_x l' /\ light_x l' <= 6)
  /\ (- (6) <= light_z l' /\ light_z l' <= 6)
  /\ calls = (if lighting_enabled then [GlLightPosition (light_position l')]
              else []).
Proof.
  intros Hsin Hcos Hal _ Hdt. apply Qgt_bool_true in Hdt.
  destruct l as [[[[lx ly] lz] lw] al ra].
  cbn [animate_light] in Hal. subst al.
  unfold update_lighting_system, update_light_animation, set_light_xyz,
    light_x, light_y, light_z, light_orbit_radius.
  cbn [animate_light light_position light_rotation_angle andb].
  rewrite Hdt.
  cbn [animate_light light_position light_rotation_angle].
  set (angle := py_mod _ 360).
  pose proof (Hsin (np_radians angle)) as [Hs1 Hs2].
  pose proof (Hcos (np_radians angle)) as [Hc1 Hc2].
  split; [reflexivity |]. split; [reflexivity |].
  split; [apply py_mod_360 |].
  split; [reflexivity |]. split; [reflexivity |].
  split; [split; lra |]. split; [split; lra |]. reflexivity.
Qed.

Lemma legacy_light_orbits_within_radius_6_witness :
  (forall x, - (1) <= three_fifths x /\ three_fifths x <= 1)
  /\ (forall x, - (1) <= four_fifths x /\ four_fifths x <= 1)
  /\ animate_light
       (snd (toggle_light_animation 0 (initial_animation, initial_light)))
     = true
  /\ 0 <= light_rotation_angle
            (snd (toggle_light_animation 0
                    (initial_animation, initial_light)))
  /\ 0 < 1 # 60
  /\ (let '(calls, (a', l')) :=
        update_lighting_system no_trig three_fifths four_fifths 3 true
          (1 # 60)
          (initial_animation,
           snd (toggle_light_animation 0
                  (initial_animation, initial_light))) in
      light_y l' = 5).
Proof.
  assert (Hs : forall x, - (1) <= three_fifths x /\ three_fifths x <= 1)
    by (intros x; split; discriminate).
  assert (Hc : forall x, - (1) <= four_fifths x /\ four_fifths x <= 1)
    by (intros x; split; discriminate).
  assert (Ha : 0 <= light_rotation_angle
                       (snd (toggle_light_animation 0
                               (initial_animation, initial_light))))
    by discriminate.
  split; [exact Hs |]. split; [exact Hc |].
  split; [reflexivity |]. split; [exact Ha |]. split; [reflexivity |].
  pose proof (legacy_light_orbits_within_radius_6 no_trig three_fifths
                four_fifths 3 (1 # 60) true initial_animation
                (snd (toggle_light_animation 0
                        (initial_animation, initial_light)))
                Hs Hc eq_refl Ha eq_refl) as K.
  destruct (update_lighting_system _ _ _ _ _ _ _) as [calls [a' l']].
  exact (proj1 (proj2 K)).
Defined.
